(** * DRBD FlexVolume plugin: the action dispatcher of [pkg/api/api.go]

    A shallow embedding of [FlexVolumeApi.Call] and of the action functions
    it dispatches to.  Go strings are byte strings ([string] of 8-bit
    [ascii]); the exit code is a [Z]; the calls into [pkg/drbd] are the
    events of a small free monad, so that an action is a finite tree of
    cluster-manager and mounter calls ending in the pair (envelope, exit
    code) that [Call] returns.

    The functions of the Go library the plugin relies on ([fmt],
    [strconv], [unicode/utf8], [encoding/json]) are modelled as they were
    in the releases of the plugin's time, Go 1.8 and 1.9.  Later releases
    differ on a few bytes only: [strconv.Quote] writes DEL as [\x7f], the
    JSON encoder writes backspace and form feed as [\b] and [\f], and the
    JSON scanner refuses texts nested deeper than 10000 levels. *)

From Stdlib Require Import ZArith List Ascii String Bool Lia.
Import ListNotations.
Local Open Scope string_scope.
Local Open Scope Z_scope.

(** ** Bytes and byte strings *)

Definition code (c : ascii) : Z := Z.of_N (N_of_ascii c).
Definition chr (z : Z) : ascii := ascii_of_N (Z.to_N z).

(** The double-quote byte, 0x22. *)
Definition dq : ascii := chr 34.

(** [s[n:]] for [n <= len(s)]. *)
Fixpoint drop (n : nat) (s : string) : string :=
  match n, s with
  | O, _ => s
  | S n', String _ r => drop n' r
  | S _, EmptyString => EmptyString
  end.

(** [s[:n]] for [n <= len(s)]. *)
Fixpoint take (n : nat) (s : string) : string :=
  match n, s with
  | O, _ => EmptyString
  | S n', String c r => String c (take n' r)
  | S _, EmptyString => EmptyString
  end.

Fixpoint concat_strings (l : list string) : string :=
  match l with
  | [] => ""
  | x :: r => x ++ concat_strings r
  end.

(** [s[i]] as a byte value; 0 when out of range (used only in range). *)
Definition byte_at (i : nat) (s : string) : Z :=
  match String.get i s with
  | Some c => code c
  | None => 0
  end.

(** The digit table ["0123456789abcdef"] shared by [encoding/json] and
    [strconv]. *)
Definition lowerhex (d : Z) : ascii :=
  if d <? 10 then chr (48 + d) else chr (87 + d).

(** Hexadecimal digits of [r], most significant first, [n] of them. *)
Fixpoint hex_digits (n : nat) (r : Z) : string :=
  match n with
  | O => ""
  | S n' => String (lowerhex (Z.land (Z.shiftr r (4 * Z.of_nat n')) 15))
                   (hex_digits n' r)
  end.

(** ** [unicode/utf8] *)

Module utf8.

Definition RuneSelf : Z := 128.
Definition RuneError : Z := 65533.
Definition MaxRune : Z := 1114111.

Definition cont (b : Z) : bool := (128 <=? b) && (b <=? 191).

(** [utf8.DecodeRuneInString]: the rune at the head of [s] and its width
    in bytes; [(RuneError, 1)] on an invalid or truncated encoding and
    [(RuneError, 0)] on the empty string.  The second byte is checked
    against the accept range of the lead byte, as in Go's [first] and
    [acceptRanges] tables. *)
Definition DecodeRuneInString (s : string) : Z * nat :=
  match s with
  | EmptyString => (RuneError, 0%nat)
  | String c0 _ =>
      let b0 := code c0 in
      let b1 := byte_at 1 s in
      let b2 := byte_at 2 s in
      let b3 := byte_at 3 s in
      let n := String.length s in
      let bad := (RuneError, 1%nat) in
      if b0 <? 128 then (b0, 1%nat)
      else if b0 <? 194 then bad
      else if b0 <? 224 then
        if (2 <=? n)%nat && cont b1
        then (Z.lor (Z.shiftl (Z.land b0 31) 6) (Z.land b1 63), 2%nat)
        else bad
      else if b0 <? 240 then
        let lo := if b0 =? 224 then 160 else 128 in
        let hi := if b0 =? 237 then 159 else 191 in
        if (3 <=? n)%nat && (lo <=? b1) && (b1 <=? hi) && cont b2
        then (Z.lor (Z.shiftl (Z.land b0 15) 12)
                (Z.lor (Z.shiftl (Z.land b1 63) 6) (Z.land b2 63)), 3%nat)
        else bad
      else if b0 <? 245 then
        let lo := if b0 =? 240 then 144 else 128 in
        let hi := if b0 =? 244 then 143 else 191 in
        if (4 <=? n)%nat && (lo <=? b1) && (b1 <=? hi) && cont b2 && cont b3
        then (Z.lor (Z.shiftl (Z.land b0 7) 18)
                (Z.lor (Z.shiftl (Z.land b1 63) 12)
                   (Z.lor (Z.shiftl (Z.land b2 63) 6) (Z.land b3 63))),
              4%nat)
        else bad
      else bad
  end.

(** [utf8.EncodeRune]: surrogates and values above [MaxRune] are written
    as [RuneError]. *)
Definition EncodeRune (r : Z) : string :=
  let r := if (r <? 0) || (MaxRune <? r) || ((55296 <=? r) && (r <=? 57343))
           then RuneError else r in
  let tail k := chr (Z.lor 128 (Z.land (Z.shiftr r k) 63)) in
  if r <? 128 then String (chr r) ""
  else if r <? 2048 then
    String (chr (Z.lor 192 (Z.shiftr r 6))) (String (tail 0) "")
  else if r <? 65536 then
    String (chr (Z.lor 224 (Z.shiftr r 12)))
      (String (tail 6) (String (tail 0) ""))
  else
    String (chr (Z.lor 240 (Z.shiftr r 18)))
      (String (tail 12) (String (tail 6) (String (tail 0) ""))).

(** The positions visited by a loop [for len(s) > 0 { r, width :=
    DecodeRuneInString(s); ...; s = s[width:] }]: for each, the rune, its
    width and the bytes [s[:width]] it was decoded from.  A rune is at
    least one byte wide, so [len(s)] steps reach the end of [s]. *)
Fixpoint runes_from (fuel : nat) (s : string) : list (Z * nat * string) :=
  match fuel, s with
  | S f, String _ _ =>
      let '(r, w) := DecodeRuneInString s in
      (r, w, take w s) :: runes_from f (drop w s)
  | _, _ => []
  end.

Definition runes (s : string) : list (Z * nat * string) :=
  runes_from (String.length s) s.

End utf8.

(** ** [strconv.Quote], the [%q] verb of [fmt] *)

Module strconv.

Section Tables.

(** [strconv.IsPrint] decides runes above Latin-1 by the Unicode tables
    [isPrint16], [isNotPrint16], [isPrint32] and [isNotPrint32] of the
    Go release; the tables are a parameter here. *)
Variable wide_IsPrint : Z -> bool.

Definition IsPrint (r : Z) : bool :=
  if r <=? 255 then
    if (32 <=? r) && (r <=? 126) then true
    else if (161 <=? r) && (r <=? 255) then negb (r =? 173)
    else false
  else wide_IsPrint r.

(** [appendEscapedRune] with the double quote as [quote] and with
    [ASCIIonly] and [graphicOnly] false. *)
Definition appendEscapedRune (r : Z) : string :=
  if (r =? 34) || (r =? 92) then String "\"%char (String (chr r) "")
  else if IsPrint r then utf8.EncodeRune r
  else if r =? 7 then "\a"
  else if r =? 8 then "\b"
  else if r =? 12 then "\f"
  else if r =? 10 then "\n"
  else if r =? 13 then "\r"
  else if r =? 9 then "\t"
  else if r =? 11 then "\v"
  else if r <? 32 then "\x" ++ hex_digits 2 r
  else if r <? 65536 then "\u" ++ hex_digits 4 r
  else "\U" ++ hex_digits 8 r.

(** The body of the loop of [appendQuotedWith]: an invalid byte is
    written as [\xNN]. *)
Definition quote_rune (x : Z * nat * string) : string :=
  let '(r, width, raw) := x in
  if (width =? 1)%nat && (r =? utf8.RuneError)
  then "\x" ++ hex_digits 2 (byte_at 0 raw)
  else appendEscapedRune r.

Definition Quote (s : string) : string :=
  String dq (concat_strings (map quote_rune (utf8.runes s)))
    ++ String dq "".

End Tables.

End strconv.

(** ** [fmt.Sprintf] verbs used by the plugin *)

Module fmt.

(** [%s] applied to a [[]string]: the elements between brackets,
    separated by one space. *)
Fixpoint join_space (l : list string) : string :=
  match l with
  | [] => ""
  | [x] => x
  | x :: r => x ++ " " ++ join_space r
  end.

Definition bracketed (l : list string) : string :=
  "[" ++ join_space l ++ "]".

End fmt.

(** ** [encoding/json]: the encoder *)

Module json_enc.

(** [htmlSafeSet]: the ASCII bytes written as they are when HTML escaping
    is on (the default of [json.Marshal]). *)
Definition htmlSafe (b : Z) : bool :=
  (32 <=? b) && negb ((b =? 34) || (b =? 92) || (b =? 60) || (b =? 62)
                      || (b =? 38)).

(** The loop body of [encodeState.string]. *)
Definition encode_rune (x : Z * nat * string) : string :=
  let '(r, width, raw) := x in
  let b := byte_at 0 raw in
  if b <? utf8.RuneSelf then
    if htmlSafe b then raw
    else if (b =? 92) || (b =? 34) then String "\"%char raw
    else if b =? 10 then "\n"
    else if b =? 13 then "\r"
    else if b =? 9 then "\t"
    else "\u00" ++ hex_digits 2 b
  else if (r =? utf8.RuneError) && (width =? 1)%nat then "\u" ++ "fffd"
  else if (r =? 8232) || (r =? 8233) then "\u202" ++ hex_digits 1 r
  else raw.

(** A Go string as a JSON string literal. *)
Definition encode_string (s : string) : string :=
  String dq (concat_strings (map encode_rune (utf8.runes s)))
    ++ String dq "".

(** One [name:value] member with a string value; the names are the
    constants of the struct tags and need no escaping. *)
Definition member (name value : string) : string :=
  String dq name ++ String dq ":" ++ encode_string value.

Fixpoint members (l : list (string * string)) : string :=
  match l with
  | [] => ""
  | [(n, v)] => member n v
  | (n, v) :: r => member n v ++ "," ++ members r
  end.

Definition object (l : list (string * string)) : string :=
  "{" ++ members l ++ "}".

End json_enc.

(** ** [encoding/json]: the decoder, as [json.Unmarshal] uses it

    [Unmarshal] first runs the scanner over the whole input ([checkValid])
    and decodes only a syntactically valid text.  The model parses the text
    to a [value] and then stores it, which makes the same two steps. *)

Module json_dec.

#[local] Unset Elimination Schemes.
Inductive value : Type :=
| Null
| Bool (b : bool)
| Number
| Str (s : string)
| Array (l : list value)
| Object (l : list (string * value)).
#[local] Set Elimination Schemes.

Definition isSpace (c : ascii) : bool :=
  let b := code c in (b =? 32) || (b =? 9) || (b =? 13) || (b =? 10).

Definition isDigit (c : ascii) : bool :=
  let b := code c in (48 <=? b) && (b <=? 57).

Definition isHex (c : ascii) : bool :=
  let b := code c in
  ((48 <=? b) && (b <=? 57)) || ((97 <=? b) && (b <=? 102))
  || ((65 <=? b) && (b <=? 70)).

Definition hexval (c : ascii) : Z :=
  let b := code c in
  if b <=? 57 then b - 48 else if b <=? 70 then b - 55 else b - 87.

Fixpoint skip_ws (s : string) : string :=
  match s with
  | String c r => if isSpace c then skip_ws r else s
  | EmptyString => s
  end.

Fixpoint skip_digits (s : string) : string :=
  match s with
  | String c r => if isDigit c then skip_digits r else s
  | EmptyString => s
  end.

(** The scanner states [stateInString], [stateInStringEsc] and
    [stateInStringEscU..U123]: from just after the opening quote to the
    closing one; the raw bytes between the quotes and the rest. *)
Fixpoint scan_string (s : string) : option (string * string) :=
  match s with
  | EmptyString => None
  | String c r =>
      if code c =? 34 then Some ("", r)
      else if code c =? 92 then
        match r with
        | EmptyString => None
        | String e r1 =>
            let b := code e in
            if (b =? 98) || (b =? 102) || (b =? 110) || (b =? 114)
               || (b =? 116) || (b =? 92) || (b =? 47) || (b =? 34)
            then match scan_string r1 with
                 | Some (body, rest) => Some (String c (String e body), rest)
                 | None => None
                 end
            else if b =? 117 then
              match r1 with
              | String h1 (String h2 (String h3 (String h4 r2))) =>
                  if isHex h1 && isHex h2 && isHex h3 && isHex h4
                  then match scan_string r2 with
                       | Some (body, rest) =>
                           Some (String c (String e (String h1 (String h2
                                  (String h3 (String h4 body))))), rest)
                       | None => None
                       end
                  else None
              | _ => None
              end
            else None
        end
      else if code c <? 32 then None
      else match scan_string r with
           | Some (body, rest) => Some (String c body, rest)
           | None => None
           end
  end.

(** The scanner states [stateE], [stateESign] and [stateE0]. *)
Definition scan_exp (s : string) : option string :=
  match s with
  | String e r =>
      if (code e =? 101) || (code e =? 69) then
        let r1 := match r with
                  | String sg r' =>
                      if (code sg =? 43) || (code sg =? 45) then r' else r
                  | EmptyString => r
                  end in
        match r1 with
        | String d r2 => if isDigit d then Some (skip_digits r2) else None
        | EmptyString => None
        end
      else Some s
  | EmptyString => Some s
  end.

(** The scanner states [state0], [state1], [stateDot] and [stateDot0]. *)
Definition scan_frac (s : string) : option string :=
  match s with
  | String dot r =>
      if code dot =? 46 then
        match r with
        | String d r1 => if isDigit d then scan_exp (skip_digits r1) else None
        | EmptyString => None
        end
      else scan_exp s
  | EmptyString => Some s
  end.

(** A number, from [stateBeginValue] or [stateNeg]; the rest of the
    input. *)
Definition scan_number (s : string) : option string :=
  let s1 := match s with
            | String m r => if code m =? 45 then r else s
            | EmptyString => s
            end in
  match s1 with
  | String d r =>
      if code d =? 48 then scan_frac r
      else if isDigit d then scan_frac (skip_digits r)
      else None
  | EmptyString => None
  end.

(** [getu4]: the rune of a leading [\uXXXX], or -1. *)
Definition getu4 (s : string) : Z :=
  match s with
  | String b (String u (String h1 (String h2 (String h3 (String h4 _))))) =>
      if (code b =? 92) && (code u =? 117)
         && isHex h1 && isHex h2 && isHex h3 && isHex h4
      then ((hexval h1 * 16 + hexval h2) * 16 + hexval h3) * 16 + hexval h4
      else -1
  | _ => -1
  end.

Definition IsSurrogate (r : Z) : bool := (55296 <=? r) && (r <? 57344).

(** [utf16.DecodeRune]. *)
Definition utf16_DecodeRune (r1 r2 : Z) : Z :=
  if (55296 <=? r1) && (r1 <? 56320) && (56320 <=? r2) && (r2 <? 57344)
  then Z.lor (Z.shiftl (r1 - 55296) 10) (r2 - 56320) + 65536
  else utf8.RuneError.

(** The loop of [unquoteBytes] over the bytes between the quotes.  Each
    step consumes at least one byte. *)
Fixpoint unquote_loop (fuel : nat) (s : string) : option string :=
  match s with
  | EmptyString => Some ""
  | String c r =>
      match fuel with
      | O => None
      | S f =>
          let emit (out : string) (rest : string) :=
            match unquote_loop f rest with
            | Some t => Some (out ++ t)
            | None => None
            end in
          let b := code c in
          if b =? 92 then
            match r with
            | EmptyString => None
            | String e r1 =>
                let x := code e in
                if (x =? 34) || (x =? 92) || (x =? 47) || (x =? 39)
                then emit (String e "") r1
                else if x =? 98 then emit (String (chr 8) "") r1
                else if x =? 102 then emit (String (chr 12) "") r1
                else if x =? 110 then emit (String (chr 10) "") r1
                else if x =? 114 then emit (String (chr 13) "") r1
                else if x =? 116 then emit (String (chr 9) "") r1
                else if x =? 117 then
                  let rr := getu4 s in
                  if rr <? 0 then None
                  else
                    let s1 := drop 6 s in
                    if IsSurrogate rr then
                      let dec := utf16_DecodeRune rr (getu4 s1) in
                      if negb (dec =? utf8.RuneError)
                      then emit (utf8.EncodeRune dec) (drop 6 s1)
                      else emit (utf8.EncodeRune utf8.RuneError) s1
                    else emit (utf8.EncodeRune rr) s1
                else None
            end
          else if (b =? 34) || (b <? 32) then None
          else if b <? utf8.RuneSelf then emit (String c "") r
          else
            let '(rr, size) := utf8.DecodeRuneInString s in
            emit (utf8.EncodeRune rr) (drop size s)
      end
  end.

Definition unquote (body : string) : option string :=
  unquote_loop (String.length body) body.

(** A quoted string, from just after its opening quote. *)
Definition parse_string (s : string) : option (string * string) :=
  match scan_string s with
  | Some (body, rest) =>
      match unquote body with
      | Some t => Some (t, rest)
      | None => None
      end
  | None => None
  end.

Definition literal (word : string) (v : value) (s : string)
  : option (value * string) :=
  if String.prefix word s then Some (v, drop (String.length word) s)
  else None.

(** One value and the rest of the input.  [parse_value] reads a value
    after optional white space; [parse_members] and [parse_elements]
    read what follows the opening bracket once it is known not to close
    at once.  A value costs one unit of fuel and a member or an element
    one more; a value has a byte of its own and a member or an element
    also its comma or closing bracket, so [S (len s)] units are enough
    for [s]. *)
Fixpoint parse_value (fuel : nat) (s : string) : option (value * string) :=
  match fuel with
  | O => None
  | S f =>
      match skip_ws s with
      | EmptyString => None
      | String c r =>
          let b := code c in
          if b =? 123 then
            match skip_ws r with
            | String c1 r1 =>
                if code c1 =? 125 then Some (Object [], r1)
                else parse_members f (skip_ws r) []
            | EmptyString => None
            end
          else if b =? 91 then
            match skip_ws r with
            | String c1 r1 =>
                if code c1 =? 93 then Some (Array [], r1)
                else parse_elements f (skip_ws r) []
            | EmptyString => None
            end
          else if b =? 34 then
            match parse_string r with
            | Some (t, rest) => Some (Str t, rest)
            | None => None
            end
          else if b =? 116 then literal "true" (Bool true) (String c r)
          else if b =? 102 then literal "false" (Bool false) (String c r)
          else if b =? 110 then literal "null" Null (String c r)
          else match scan_number (String c r) with
               | Some rest => Some (Number, rest)
               | None => None
               end
      end
  end

with parse_members (fuel : nat) (s : string) (acc : list (string * value))
  : option (value * string) :=
  match fuel with
  | O => None
  | S f =>
      match skip_ws s with
      | String q r =>
          if code q =? 34 then
            match parse_string r with
            | Some (key, r1) =>
                match skip_ws r1 with
                | String colon r2 =>
                    if code colon =? 58 then
                      match parse_value f r2 with
                      | Some (v, r3) =>
                          match skip_ws r3 with
                          | String d r4 =>
                              if code d =? 44
                              then parse_members f r4 (acc ++ [(key, v)])
                              else if code d =? 125
                              then Some (Object (acc ++ [(key, v)]), r4)
                              else None
                          | EmptyString => None
                          end
                      | None => None
                      end
                    else None
                | EmptyString => None
                end
            | None => None
            end
          else None
      | EmptyString => None
      end
  end

with parse_elements (fuel : nat) (s : string) (acc : list value)
  : option (value * string) :=
  match fuel with
  | O => None
  | S f =>
      match parse_value f s with
      | Some (v, r1) =>
          match skip_ws r1 with
          | String d r2 =>
              if code d =? 44 then parse_elements f r2 (acc ++ [v])
              else if code d =? 93 then Some (Array (acc ++ [v]), r2)
              else None
          | EmptyString => None
          end
      | None => None
      end
  end.

(** [checkValid]: one value, white space around it, nothing else. *)
Definition parse (s : string) : option value :=
  match parse_value (S (String.length s)) s with
  | Some (v, rest) =>
      match skip_ws rest with
      | EmptyString => Some v
      | String _ _ => None
      end
  | None => None
  end.

(** [equalFoldRight], the fold function [foldFunc] selects for a field
    name that is ASCII and has a [k] or an [s] in it: ASCII letters match
    without regard to case, [k] also matches the Kelvin sign U+212A and
    [s] the long s U+017F. *)
Fixpoint equalFoldRight (s t : string) : bool :=
  match s with
  | EmptyString =>
      match t with EmptyString => true | String _ _ => false end
  | String sc s' =>
      match t with
      | EmptyString => false
      | String tc t' =>
          let sb := code sc in
          let tb := code tc in
          if tb <? utf8.RuneSelf then
            if sb =? tb then equalFoldRight s' t'
            else
              let sbUpper := Z.land sb 223 in
              if (65 <=? sbUpper) && (sbUpper <=? 90)
                 && (sbUpper =? Z.land tb 223)
              then equalFoldRight s' t'
              else false
          else
            let '(tr, size) := utf8.DecodeRuneInString t in
            if ((sb =? 115) || (sb =? 83)) && (tr =? 383)
            then equalFoldRight s' (drop size t)
            else if ((sb =? 107) || (sb =? 75)) && (tr =? 8490)
            then equalFoldRight s' (drop size t)
            else false
      end
  end.

End json_dec.

(** ** Data of [pkg/api] *)

(** A Go [error] value, observed through its [Error] method only.  The
    plugin's own error type is [flexAPIErr]; the errors of [pkg/drbd] are
    opaque and carry the text their [Error] method returns.  The nil error
    is [None] of [option error]. *)
Inductive error : Type :=
| flexAPIErr (message : string)
| drbdErr (text : string).

Definition Error (e : error) : string :=
  match e with
  | flexAPIErr message => "DRBD Flexvoume API: " ++ message
  | drbdErr text => text
  end.

Record response : Type := mkResponse {
  Status : string;
  Message : string
}.

Record attachResponse : Type := mkAttachResponse {
  attach_response : response;
  Device : string
}.

Record isAttachedResponse : Type := mkIsAttachedResponse {
  isAttached_response : response;
  Attached : string
}.

Record getVolNameResponse : Type := mkGetVolNameResponse {
  getVolName_response : response;
  VolumeName : string
}.

Record options : Type := mkOptions {
  FsType : string;
  Readwrite : string;
  Resource : string
}.

(** The values [json.Marshal] is applied to: its [interface{}] argument
    holds one of the four response structs. *)
Inductive envelope : Type :=
| Plain (r : response)
| OfAttach (r : attachResponse)
| OfIsAttached (r : isAttachedResponse)
| OfGetVolName (r : getVolNameResponse).

(** The embedded [response] of an envelope. *)
Definition base (e : envelope) : response :=
  match e with
  | Plain r => r
  | OfAttach r => attach_response r
  | OfIsAttached r => isAttached_response r
  | OfGetVolName r => getVolName_response r
  end.

(** [json.Marshal]: the fields of the embedded [response] come first, under
    their tags; no field has [omitempty], so [message] is always written. *)
Definition json_Marshal (e : envelope) : string :=
  let head := [("status", Status (base e)); ("message", Message (base e))] in
  json_enc.object
    (head ++ match e with
             | Plain _ => []
             | OfAttach r => [("device", Device r)]
             | OfIsAttached r => [("attached", Attached r)]
             | OfGetVolName r => [("volumeName", VolumeName r)]
             end).

(** The fields of [options] in declaration order, with their JSON names. *)
Inductive field : Type := fFsType | fReadwrite | fResource.

Definition field_name (f : field) : string :=
  match f with
  | fFsType => "kubernetes.io/fsType"
  | fReadwrite => "kubernetes.io/readwrite"
  | fResource => "resource"
  end.

Definition fields : list field := [fFsType; fReadwrite; fResource].

(** The field an object key selects: the loop over the fields in
    [decodeState.object] stops at an exact match and otherwise keeps the
    first match under case folding. *)
Fixpoint find_field (l : list field) (key : string) (found : option field)
  : option field :=
  match l with
  | [] => found
  | ff :: r =>
      if String.eqb (field_name ff) key then Some ff
      else match found with
           | None =>
               if json_dec.equalFoldRight (field_name ff) key
               then find_field r key (Some ff)
               else find_field r key None
           | Some _ => find_field r key found
           end
  end.

Definition set_field (f : field) (v : string) (o : options) : options :=
  match f with
  | fFsType => mkOptions v (Readwrite o) (Resource o)
  | fReadwrite => mkOptions (FsType o) v (Resource o)
  | fResource => mkOptions (FsType o) (Readwrite o) v
  end.

(** Storing the members of an object into [options]: a string is stored, a
    null leaves the field as it is, any other value records an
    [UnmarshalTypeError] ([failed]) and decoding goes on; a key that
    selects no field is skipped. *)
Fixpoint store_members (l : list (string * json_dec.value)) (o : options)
  (failed : bool) : options * bool :=
  match l with
  | [] => (o, failed)
  | (key, v) :: r =>
      match find_field fields key None with
      | None => store_members r o failed
      | Some f =>
          match v with
          | json_dec.Str s => store_members r (set_field f s o) failed
          | json_dec.Null => store_members r o failed
          | _ => store_members r o true
          end
      end
  end.

(** [json.Unmarshal([]byte(s), &opts)]: the options after the call and
    whether the returned error is non-nil.  A text that is not JSON leaves
    [opts] alone; a null at top level stores nothing; a top-level value that
    is neither null nor an object is an [UnmarshalTypeError]. *)
Definition json_Unmarshal (s : string) (opts : options) : options * bool :=
  match json_dec.parse s with
  | None => (opts, true)
  | Some json_dec.Null => (opts, false)
  | Some (json_dec.Object l) => store_members l opts false
  | Some _ => (opts, true)
  end.

Definition parseOptions (s : string) : options * option error :=
  let opts := mkOptions "" "" "" in
  let '(opts, failed) := json_Unmarshal s opts in
  if failed
  then (opts, Some (flexAPIErr ("couldn't parse options from " ++ s)))
  else (opts, None).

(** ** Data of [pkg/drbd] the dispatcher builds *)

Module drbd.

Record Resource : Type := mkResource {
  Name : string;
  NodeName : string
}.

(** [Mounter.Resource] is a pointer: [None] is nil. *)
Record Mounter : Type := mkMounter {
  MResource : option Resource;
  FSType : string
}.

(** The calls the dispatcher makes into the package.  [AssignRes] returns
    a pair whose first component [attach] discards; only its error is
    kept here. *)
Inductive call : Type :=
| AssignRes (r : Resource)
| WaitForDevPath (r : Resource) (maxRetries : Z)
| WaitForAssignment (r : Resource) (maxRetries : Z)
| UnassignRes (r : Resource)
| Mount (m : Mounter) (path : string)
| UnMount (m : Mounter) (path : string).

Definition answer (c : call) : Type :=
  match c with
  | AssignRes _ => option error
  | WaitForDevPath _ _ => (string * option error)%type
  | WaitForAssignment _ _ => (bool * option error)%type
  | UnassignRes _ => option error
  | Mount _ _ => option error
  | UnMount _ _ => option error
  end.

End drbd.

(** ** Programs over the calls into [pkg/drbd]

    An invocation either returns, or panics (an index out of range), or
    makes a call into [pkg/drbd] and goes on with its answer. *)

Inductive Prog (A : Type) : Type :=
| Ret (a : A)
| Panic
| Vis (c : drbd.call) (k : drbd.answer c -> Prog A).

Arguments Ret {A} a.
Arguments Panic {A}.
Arguments Vis {A} c k.

Fixpoint bind {A B : Type} (p : Prog A) (f : A -> Prog B) : Prog B :=
  match p with
  | Ret a => f a
  | Panic => Panic
  | Vis c k => Vis c (fun x => bind (k x) f)
  end.

Definition trigger (c : drbd.call) : Prog (drbd.answer c) := Vis c Ret.

Notation "x <- p ;; q" := (bind p (fun x => q))
  (at level 61, p at next level, right associativity).
Notation "' pat <- p ;; q" := (bind p (fun x => match x with pat => q end))
  (at level 61, pat pattern, p at next level, right associativity).

(** [s[i]], which panics out of range. *)
Definition index (s : list string) (i : nat) : Prog string :=
  match nth_error s i with
  | Some x => Ret x
  | None => Panic
  end.

(** How an invocation ends. *)
Inductive outcome (A : Type) : Type :=
| Returned (a : A)
| Panicked.

Arguments Returned {A} a.
Arguments Panicked {A}.

(** The external world: every call is answered from a state of the cluster
    manager and the mount table, which the call may change. *)
Definition world (W : Type) : Type := forall c : drbd.call, W -> drbd.answer c * W.

(** Running a program against a world: how it ends, the final state and the
    calls made, in order. *)
Fixpoint run {W A : Type} (h : world W) (p : Prog A) (w : W)
  : outcome A * W * list drbd.call :=
  match p with
  | Ret a => (Returned a, w, [])
  | Panic => (Panicked, w, [])
  | Vis c k =>
      let '(x, w1) := h c w in
      let '(o, w2, t) := run h (k x) w1 in
      (o, w2, c :: t)
  end.

(** ** [FlexVolumeApi]: the dispatcher and its actions *)

Section Api.

(** The Unicode tables behind [%q]; see [strconv.IsPrint]. *)
Variable wide_IsPrint : Z -> bool.

Local Abbreviation Quote := (strconv.Quote wide_IsPrint).

(** [res, _ := json.Marshal(v); return string(res), code]. *)
Definition reply (v : envelope) (code : Z) : Prog (string * Z) :=
  Ret (json_Marshal v, code).

Definition failure (message : string) : envelope :=
  Plain (mkResponse "Failure" message).

Definition success : envelope := Plain (mkResponse "Success" "").

Definition tooFewArgsResponse (s : list string) : Prog (string * Z) :=
  s0 <- index s 0;;
  reply (failure (Error (flexAPIErr
           (s0 ++ ": too few arguments passed: " ++ fmt.bracketed s)))) 2.

Definition init : Prog (string * Z) := reply success 0.

Definition attach (s : list string) : Prog (string * Z) :=
  if (List.length s <? 3)%nat then tooFewArgsResponse s
  else
    s1 <- index s 1;;
    let '(opts, err) := parseOptions s1 in
    match err with
    | Some e => reply (failure (Error e)) 2
    | None =>
        s2 <- index s 2;;
        let resource := drbd.mkResource (Resource opts) s2 in
        err <- trigger (drbd.AssignRes resource);;
        match err with
        | Some _ =>
            reply (failure (Error (flexAPIErr
                     ("attach: failed to assign resource "
                      ++ Quote (drbd.Name resource))))) 1
        | None =>
            '(path, err) <- trigger (drbd.WaitForDevPath resource 4);;
            match err with
            | Some _ =>
                reply (failure (Error (flexAPIErr
                         ("attach: unable to find device path for resource "
                          ++ Quote (drbd.Name resource))))) 1
            | None =>
                reply (OfAttach (mkAttachResponse
                                   (mkResponse "Success" "") path)) 0
            end
        end
    end.

Definition waitForAttach (s : list string) : Prog (string * Z) :=
  reply success 0.

Definition detach (s : list string) : Prog (string * Z) :=
  if (List.length s <? 3)%nat then tooFewArgsResponse s
  else
    s1 <- index s 1;;
    s2 <- index s 2;;
    let resource := drbd.mkResource s1 s2 in
    err <- trigger (drbd.UnassignRes resource);;
    match err with
    | Some e => reply (failure (Error e)) 2
    | None => reply success 0
    end.

Definition mountDevice (s : list string) : Prog (string * Z) :=
  if (List.length s <? 4)%nat then tooFewArgsResponse s
  else
    s3 <- index s 3;;
    let '(opts, err) := parseOptions s3 in
    match err with
    | Some e => reply (failure (Error e)) 2
    | None =>
        let mounter :=
          drbd.mkMounter (Some (drbd.mkResource (Resource opts) ""))
                         (FsType opts) in
        s1 <- index s 1;;
        err <- trigger (drbd.Mount mounter s1);;
        match err with
        | Some e =>
            reply (failure (Error (flexAPIErr
                     ("mountDevice: " ++ Quote (Error e))))) 2
        | None => reply success 0
        end
    end.

Definition unmount (s : list string) : Prog (string * Z) :=
  if (List.length s <? 2)%nat then tooFewArgsResponse s
  else
    let umounter := drbd.mkMounter None "" in
    s1 <- index s 1;;
    err <- trigger (drbd.UnMount umounter s1);;
    match err with
    | Some e =>
        reply (failure (Error (flexAPIErr ("unmount: " ++ Error e)))) 1
    | None => reply success 0
    end.

Definition unmountDevice (s : list string) : Prog (string * Z) :=
  unmount s.

Definition getVolumeName (s : list string) : Prog (string * Z) :=
  if (List.length s <? 2)%nat then tooFewArgsResponse s
  else
    s1 <- index s 1;;
    let '(opts, err) := parseOptions s1 in
    match err with
    | Some e => reply (failure (Error e)) 2
    | None =>
        reply (OfGetVolName (mkGetVolNameResponse
                               (mkResponse "Success" "") (Resource opts))) 0
    end.

Definition isAttached (s : list string) : Prog (string * Z) :=
  if (List.length s <? 3)%nat then tooFewArgsResponse s
  else
    s1 <- index s 1;;
    let '(opts, err) := parseOptions s1 in
    match err with
    | Some e => reply (failure (Error e)) 2
    | None =>
        s2 <- index s 2;;
        let resource := drbd.mkResource (Resource opts) s2 in
        '(ok, err) <- trigger (drbd.WaitForAssignment resource 4);;
        match err with
        | Some e => reply (failure (Error e)) 2
        | None =>
            if negb ok then
              reply (failure (Error (flexAPIErr
                       ("resource " ++ Quote (drbd.Name resource)
                        ++ " not attached")))) 2
            else
              reply (OfIsAttached (mkIsAttachedResponse
                                     (mkResponse "Success" "") "true")) 0
        end
    end.

Definition Call (s : list string) : Prog (string * Z) :=
  if (List.length s <? 1)%nat then
    reply (failure "No driver action! Valid actions are: init, attach, detach, mountdevice, unmountdevice, getvolumename, isattached") 2
  else
    s0 <- index s 0;;
    if String.eqb s0 "init" then init
    else if String.eqb s0 "attach" then attach s
    else if String.eqb s0 "waitforattach" then waitForAttach s
    else if String.eqb s0 "detach" then detach s
    else if String.eqb s0 "mountdevice" then mountDevice s
    else if String.eqb s0 "unmountdevice" then unmountDevice s
    else if String.eqb s0 "unmount" then unmount s
    else if String.eqb s0 "getvolumename" then getVolumeName s
    else if String.eqb s0 "isattached" then isAttached s
    else
      reply (Plain (mkResponse "Not supported"
                      ("Unsupported driver action: " ++ Quote s0))) 2.

End Api.

(** ** Vocabulary of the specification *)

(** A JSON text written with apostrophes in place of double quotes (for
    texts that have no apostrophe of their own). *)
Fixpoint json_text (s : string) : string :=
  match s with
  | EmptyString => EmptyString
  | String c r => String (if code c =? 39 then dq else c) (json_text r)
  end.

(** The action names [Call] dispatches on. *)
Definition actions : list string :=
  ["init"; "attach"; "waitforattach"; "detach"; "mountdevice";
   "unmountdevice"; "unmount"; "getvolumename"; "isattached"].

Definition recognized (action : string) : bool :=
  existsb (String.eqb action) actions.

(** The number of arguments after the action name that the invocation
    protocol expects, for the actions that take arguments (the table of the
    external interface). *)
Definition required_args (action : string) : option nat :=
  if String.eqb action "attach" then Some 2%nat
  else if String.eqb action "detach" then Some 2%nat
  else if String.eqb action "mountdevice" then Some 3%nat
  else if String.eqb action "unmountdevice" then Some 1%nat
  else if String.eqb action "unmount" then Some 1%nat
  else if String.eqb action "getvolumename" then Some 1%nat
  else if String.eqb action "isattached" then Some 2%nat
  else None.

(** An options string [json.Unmarshal] rejects: not JSON, or JSON that does
    not fit the [options] struct. *)
Definition malformed (raw : string) : bool :=
  snd (json_Unmarshal raw (mkOptions "" "" "")).

(** The reply to an options string that does not parse. *)
Definition options_failure (raw : string) : Prog (string * Z) :=
  Ret (json_Marshal
         (Plain (mkResponse "Failure"
                   ("DRBD Flexvoume API: couldn't parse options from " ++ raw))),
       2).

(** Every way a program can end is a return of a marshalled envelope that
    satisfies [P], never a panic. *)
Fixpoint ends_in (P : envelope -> Z -> Prop) (p : Prog (string * Z)) : Prop :=
  match p with
  | Ret (out, code) => exists e, out = json_Marshal e /\ P e code
  | Panic => False
  | Vis c k => forall x, ends_in P (k x)
  end.

(** The invariant of the envelope: a status of Success comes with an empty
    message, in the struct that is marshalled and in the text written: a
    text that opens with the status Success goes on with the empty
    message. *)
Definition success_has_no_message (e : envelope) (code : Z) : Prop :=
  (Status (base e) = "Success" -> Message (base e) = "")
  /\ (String.prefix (json_text "{'status':'Success'") (json_Marshal e) = true ->
      String.prefix (json_text "{'status':'Success','message':''")
        (json_Marshal e) = true).

(** A world without state that gives each call a fixed answer. *)
Definition fixed_world (assign : option error)
  (devpath : string * option error) (assigned : bool * option error)
  (unassign mount unmount_ : option error) : world unit :=
  fun c w =>
    (match c as c0 return drbd.answer c0 with
     | drbd.AssignRes _ => assign
     | drbd.WaitForDevPath _ _ => devpath
     | drbd.WaitForAssignment _ _ => assigned
     | drbd.UnassignRes _ => unassign
     | drbd.Mount _ _ => mount
     | drbd.UnMount _ _ => unmount_
     end, w).

(** A cluster that never reports the resource as assigned. *)
Definition never_assigned : world unit :=
  fixed_world None ("", None) (false, None) None None None.

(** A cluster manager that rejects every assignment. *)
Definition rejecting : world unit :=
  fixed_world (Some (drbdErr "assign failed")) ("", None) (false, None)
              None None None.

(** A cluster that accepts the assignment and never shows a device. *)
Definition no_device : world unit :=
  fixed_world None ("", Some (drbdErr "timed out")) (false, None)
              None None None.

(** Tables for [%q] that hold no rune above Latin-1 printable. *)
Definition latin1_tables : Z -> bool := fun _ => false.

(** ** The device path resolver of [pkg/drbd] *)

Module Resolver.

(** The errors of the resolver: the polling budget ran out for the named
    resource, or the manager failed. *)
Inductive resolveError : Type :=
| TimeoutError (resource : string)
| ManagerError (text : string).

Section Manager.

(** The cluster manager: a state [M] and the single, non-blocking query
    [queryDevicePath], which answers [inl None] while the device is not
    there yet, [inl (Some path)] once it is and [inr text] on a
    manager-level failure. *)
Variable M : Type.
Variable queryDevicePath :
  drbd.Resource -> M -> (option string + string) * M.

(** Modelled from the spec: [WaitForDevPath] is in [pkg/drbd], which is
    not among the sources.  [queryDevicePath] is called up to
    [maxAttempts] times; the first non-empty path is returned; when the
    attempts are used up the result is a [TimeoutError] that names the
    resource; a manager-level error ends the polling at once.  The
    result comes with the manager's state and the number of queries
    made.  The fixed sleep between two attempts has no effect on the
    result and is not represented. *)
Fixpoint waitForDevicePath (resource : drbd.Resource) (maxAttempts : nat)
  (m : M) : (string + resolveError) * M * nat :=
  match maxAttempts with
  | O => (inr (TimeoutError (drbd.Name resource)), m, O)
  | S n =>
      match queryDevicePath resource m with
      | (inr text, m1) => (inr (ManagerError text), m1, 1%nat)
      | (inl (Some (String c p)), m1) => (inl (String c p), m1, 1%nat)
      | (inl _, m1) =>
          let '(res, m2, polls) := waitForDevicePath resource n m1 in
          (res, m2, S polls)
      end
  end.

(** The answer to the poll made in state [m] and the state after it. *)
Definition poll (resource : drbd.Resource) (m : M) : option string + string :=
  fst (queryDevicePath resource m).

Definition next (resource : drbd.Resource) (m : M) : M :=
  snd (queryDevicePath resource m).

(** The manager's state after [k] polls. *)
Fixpoint after (resource : drbd.Resource) (k : nat) (m : M) : M :=
  match k with
  | O => m
  | S k' => after resource k' (next resource m)
  end.

(** The manager reports no path at each of the first [k] polls. *)
Definition no_path_for (resource : drbd.Resource) (k : nat) (m : M) : Prop :=
  forall i, (i < k)%nat ->
    poll resource (after resource i m) = inl None
    \/ poll resource (after resource i m) = inl (Some "").

End Manager.

(** A manager that answers from a script, one entry per poll, and
    reports no path once the script is used up. *)
Definition scripted (resource : drbd.Resource)
  (script : list (option string + string))
  : (option string + string) * list (option string + string) :=
  match script with
  | [] => (inl None, [])
  | a :: r => (a, r)
  end.

End Resolver.

(** ** Vocabulary of the further properties *)

(** The number of arguments after the action name that an action reads:
    none for [init] and [waitforattach], the required ones for the
    others. *)
Definition arity (action : string) : option nat :=
  if String.eqb action "init" then Some 0%nat
  else if String.eqb action "waitforattach" then Some 0%nat
  else required_args action.

(** How the exit code goes with the status, for the argument vector [s]:
    0 with Success and only with it, 1 or 2 otherwise; 1 only from
    [attach], [unmount] and [unmountdevice]; the third status only for a
    first argument that is no action name. *)
Definition status_matches_code (s : list string) (e : envelope) (code : Z)
  : Prop :=
  (code = 0 <-> Status (base e) = "Success")
  /\ (code = 0 \/ code = 1 \/ code = 2)
  /\ (Status (base e) = "Success" \/ Status (base e) = "Failure"
      \/ Status (base e) = "Not supported")
  /\ (code = 1 ->
      exists a rest, s = a :: rest
        /\ (a = "attach" \/ a = "unmount" \/ a = "unmountdevice"))
  /\ (Status (base e) = "Not supported" ->
      code = 2 /\ exists a rest, s = a :: rest /\ recognized a = false).

(** Every sequence of calls a program can make, under any answers,
    satisfies [Q]. *)
Fixpoint traces_ok {A : Type} (Q : list drbd.call -> Prop) (p : Prog A)
  : Prop :=
  match p with
  | Ret _ => Q []
  | Panic => Q []
  | Vis c k => forall x, traces_ok (fun t => Q (c :: t)) (k x)
  end.

(** The sequences of calls an invocation with the argument vector [s] may
    make: none; or the one call of its action, on the resource, node and
    path the arguments name and with a polling budget of 4; or, for
    [attach], the assignment followed by the wait for the device of the
    same resource. *)
Definition calls_allowed (s : list string) (t : list drbd.call) : Prop :=
  let action := nth_error s 0 in
  let named (r : drbd.Resource) :=
    Some (drbd.Name r)
    = option_map (fun raw => Resource (fst (parseOptions raw))) (nth_error s 1)
    /\ Some (drbd.NodeName r) = nth_error s 2 in
  match t with
  | [] => True
  | [drbd.AssignRes r] => action = Some "attach" /\ named r
  | [drbd.AssignRes r; drbd.WaitForDevPath r' n] =>
      action = Some "attach" /\ named r /\ r' = r /\ n = 4
  | [drbd.WaitForAssignment r n] =>
      action = Some "isattached" /\ named r /\ n = 4
  | [drbd.UnassignRes r] =>
      action = Some "detach"
      /\ Some (drbd.Name r) = nth_error s 1
      /\ Some (drbd.NodeName r) = nth_error s 2
  | [drbd.Mount m path] =>
      action = Some "mountdevice"
      /\ Some path = nth_error s 1
      /\ Some m
         = option_map
             (fun raw =>
                let opts := fst (parseOptions raw) in
                drbd.mkMounter (Some (drbd.mkResource (Resource opts) ""))
                               (FsType opts))
             (nth_error s 3)
  | [drbd.UnMount m path] =>
      (action = Some "unmount" \/ action = Some "unmountdevice")
      /\ Some path = nth_error s 1
      /\ m = drbd.mkMounter None ""
  | _ => False
  end.

(** Some answers of the world lead the program to a panic. *)
Fixpoint may_panic {A : Type} (p : Prog A) : Prop :=
  match p with
  | Ret _ => False
  | Panic => True
  | Vis c k => exists x, may_panic (k x)
  end.

(** Byte strings of ASCII bytes only. *)
Fixpoint is_ascii (s : string) : bool :=
  match s with
  | EmptyString => true
  | String c r => (code c <? 128) && is_ascii r
  end.

(** Byte strings the JSON encoder writes as they are: ASCII without
    control bytes, double quote, backslash and the three bytes that HTML
    escaping rewrites. *)
Fixpoint is_plain (s : string) : bool :=
  match s with
  | EmptyString => true
  | String c r => (code c <? 128) && json_enc.htmlSafe (code c) && is_plain r
  end.

(** What the JSON encoder writes for one ASCII byte, and for a string of
    them. *)
Definition enc_byte (c : ascii) : string :=
  json_enc.encode_rune (code c, 1%nat, String c "").

Fixpoint enc_bytes (s : string) : string :=
  match s with
  | EmptyString => EmptyString
  | String c r => enc_byte c ++ enc_bytes r
  end.

(** The runes of an ASCII string: one per byte. *)
Fixpoint ascii_runes (s : string) : list (Z * nat * string) :=
  match s with
  | EmptyString => []
  | String c r => (code c, 1%nat, String c "") :: ascii_runes r
  end.

(** The members of a JSON object whose values are all strings. *)
Definition string_members (l : list (string * string))
  : list (string * json_dec.value) :=
  map (fun kv => (fst kv, json_dec.Str (snd kv))) l.

(** The string fields of an envelope under their JSON names, in the order
    [json.Marshal] writes them. *)
Definition envelope_members (e : envelope) : list (string * string) :=
  [("status", Status (base e)); ("message", Message (base e))]
  ++ match e with
     | Plain _ => []
     | OfAttach r => [("device", Device r)]
     | OfIsAttached r => [("attached", Attached r)]
     | OfGetVolName r => [("volumeName", VolumeName r)]
     end.

(** The fields of [options] under their JSON names. *)
Definition options_members (o : options) : list (string * string) :=
  [("kubernetes.io/fsType", FsType o);
   ("kubernetes.io/readwrite", Readwrite o);
   ("resource", Resource o)].

(** Members the encoder writes without escaping their names and reads
    back as they are: plain names, ASCII values. *)
Definition members_ok (l : list (string * string)) : bool :=
  forallb (fun kv => is_plain (fst kv) && is_ascii (snd kv)) l.

(** All string fields of an envelope are ASCII. *)
Definition ascii_fields (e : envelope) : bool :=
  forallb is_ascii (map snd (envelope_members e)).

(** The value a field of [options] ends with after the members [l] are
    stored in order, starting from [start]: that of the last member whose
    key selects the field. *)
Definition selects (f : field) (key : string) : bool :=
  match find_field fields key None with
  | Some fFsType => match f with fFsType => true | _ => false end
  | Some fReadwrite => match f with fReadwrite => true | _ => false end
  | Some fResource => match f with fResource => true | _ => false end
  | None => false
  end.

Fixpoint last_value (f : field) (l : list (string * string)) (start : string)
  : string :=
  match l with
  | [] => start
  | (key, v) :: r => last_value f r (if selects f key then v else start)
  end.

(** What the JSON encoder writes between the quotes for a string. *)
Definition enc_body (s : string) : string :=
  concat_strings (map json_enc.encode_rune (utf8.runes s)).

(** What the JSON decoder reads back from what the encoder wrote for [s]:
    [s] itself when it is ASCII (and, in Go, whenever it is valid UTF-8),
    otherwise [s] with its invalid bytes replaced by U+FFFD. *)
Definition read_back (s : string) : string :=
  match json_dec.unquote (enc_body s) with
  | Some u => u
  | None => s
  end.

(** Bytes from 0x80 up. *)
Fixpoint is_high (s : string) : bool :=
  match s with
  | EmptyString => true
  | String c r => (128 <=? code c) && is_high r
  end.

(** The bytes between the quotes of a well-formed JSON string: no control
    byte, no bare double quote, and after a backslash one of the escapes
    the scanner knows. *)
Fixpoint body_ok (s : string) : bool :=
  match s with
  | EmptyString => true
  | String c r =>
      if code c =? 92 then
        match r with
        | EmptyString => false
        | String e r1 =>
            let b := code e in
            if (b =? 98) || (b =? 102) || (b =? 110) || (b =? 114)
               || (b =? 116) || (b =? 92) || (b =? 47) || (b =? 34)
            then body_ok r1
            else if b =? 117 then
              match r1 with
              | String h1 (String h2 (String h3 (String h4 r2))) =>
                  json_dec.isHex h1 && json_dec.isHex h2 && json_dec.isHex h3
                  && json_dec.isHex h4 && body_ok r2
              | _ => false
              end
            else false
        end
      else if (code c =? 34) || (code c <? 32) then false
      else body_ok r
  end.

(** The members of an object written by the encoder as the decoder reads
    them back. *)
Definition read_members (l : list (string * string))
  : list (string * json_dec.value) :=
  map (fun kv => (fst kv, json_dec.Str (read_back (snd kv)))) l.

(** Member names the encoder may write without escaping. *)
Definition keys_plain (l : list (string * string)) : bool :=
  forallb (fun kv => is_plain (fst kv)) l.

(** Printable ASCII other than the double quote and the backslash: the
    bytes [%q] writes as they are. *)
Fixpoint is_printable (s : string) : bool :=
  match s with
  | EmptyString => true
  | String c r =>
      (32 <=? code c) && (code c <=? 126) && negb (code c =? 34)
      && negb (code c =? 92) && is_printable r
  end.

(** ASCII letters in lower case; other bytes as they are. *)
Definition lower_code (b : Z) : Z :=
  if (65 <=? b) && (b <=? 90) then b + 32 else b.

Definition lower_byte (c : ascii) : ascii := chr (lower_code (code c)).

Fixpoint lower (s : string) : string :=
  match s with
  | EmptyString => EmptyString
  | String c r => String (lower_byte c) (lower r)
  end.



(** ** The library model at sample inputs *)

Example Quote_sample :
  strconv.Quote latin1_tables (json_text "a'b\c" ++ String (chr 10) "")
  = json_text "'a\'b\\c\n'".
Proof. reflexivity. Qed.

Example encode_string_sample :
  json_enc.encode_string (json_text "a'b\c" ++ String (chr 9) (String (chr 255) ""))
  = json_text "'a\'b\\c\t\u" ++ json_text "fffd'".
Proof. reflexivity. Qed.

Example Marshal_attach_sample :
  json_Marshal (OfAttach (mkAttachResponse (mkResponse "Success" "") "/dev/drbd0"))
  = json_text "{'status':'Success','message':'','device':'/dev/drbd0'}".
Proof. reflexivity. Qed.

Example parse_nested_sample :
  json_dec.parse (json_text " [1, [-2.5e+3, {'a': {'b': [null, true]}}], 'x\ny'] ")
  = Some (json_dec.Array
            [json_dec.Number;
             json_dec.Array
               [json_dec.Number;
                json_dec.Object
                  [("a", json_dec.Object
                           [("b", json_dec.Array
                                    [json_dec.Null; json_dec.Bool true])])]];
             json_dec.Str (String "x" (String (chr 10) "y"))]).
Proof. reflexivity. Qed.

Example parse_rejects_sample :
  map json_dec.parse
    [""; "nullx"; "01"; "1."; "[1,]"; json_text "{'a':1,}"; json_text "{'a' 1}";
     json_text "'a"; json_text "'\q'"; "[1] 2"]
  = repeat None 10.
Proof. reflexivity. Qed.

Example parseOptions_fold_sample :
  parseOptions (json_text " { 'RESOURCE' : 'r0' , 'x' : [1, {'y': null}], 'Kubernetes.IO/FSTYPE':'xfs', 'resource':null } ")
  = (mkOptions "xfs" "" "r0", None).
Proof. reflexivity. Qed.

Example malformed_sample :
  map malformed
    [""; "{"; "[]"; "7"; json_text "'r0'"; json_text "{'resource':5}";
     json_text "{'resource':{}}"; "null"; "{}"; json_text "{'other':5}"]
  = [true; true; true; true; true; true; true; false; false; false].
Proof. reflexivity. Qed.

Example attach_success_sample :
  run (fixed_world None ("/dev/drbd0", None) (true, None) None None None)
      (Call latin1_tables ["attach"; json_text "{'resource':'r0'}"; "nodeA"]) tt
  = (Returned (json_text "{'status':'Success','message':'','device':'/dev/drbd0'}", 0),
     tt,
     [drbd.AssignRes (drbd.mkResource "r0" "nodeA");
      drbd.WaitForDevPath (drbd.mkResource "r0" "nodeA") 4]).
Proof. reflexivity. Qed.

(** ** Properties of the dispatcher *)

(** A program that returns at once makes no call, whatever the world. *)
Lemma run_Ret {W A : Type} (h : world W) (a : A) (w : W) :
  run h (Ret a) w = (Returned a, w, []).
Proof. reflexivity. Qed.

Lemma run_Vis {W A : Type} (h : world W) (c : drbd.call)
  (k : drbd.answer c -> Prog A) (w : W) :
  run h (Vis c k) w =
  (let '(o, w2, t) := run h (k (fst (h c w))) (snd (h c w)) in (o, w2, c :: t)).
Proof. simpl. destruct (h c w) as [x w1]. reflexivity. Qed.

(** What holds of every end of a program holds of the end it reaches in a
    given world. *)
Lemma ends_in_run {W : Type} (P : envelope -> Z -> Prop) (h : world W)
  (p : Prog (string * Z)) :
  ends_in P p ->
  forall w, exists e code w' t,
    run h p w = (Returned (json_Marshal e, code), w', t) /\ P e code.
Proof.
  induction p as [[out code] | | c k IH]; simpl; intros Hp w.
  - destruct Hp as [e [-> HP]]. exists e, code, w, []. auto.
  - contradiction.
  - destruct (h c w) as [x w1].
    destruct (IH x (Hp x) w1) as (e & code & w' & t & Hrun & HP).
    exists e, code, w', (c :: t). rewrite Hrun. auto.
Qed.

Lemma parseOptions_malformed (raw : string) :
  malformed raw = true ->
  snd (parseOptions raw)
  = Some (flexAPIErr ("couldn't parse options from " ++ raw)).
Proof.
  unfold malformed, parseOptions.
  destruct (json_Unmarshal raw (mkOptions "" "" "")) as [o failed].
  simpl. intros ->. reflexivity.
Qed.

Lemma parseOptions_cases (raw : string) :
  (malformed raw = true /\
   snd (parseOptions raw)
   = Some (flexAPIErr ("couldn't parse options from " ++ raw)))
  \/ (malformed raw = false /\ snd (parseOptions raw) = None).
Proof.
  unfold malformed, parseOptions.
  destruct (json_Unmarshal raw (mkOptions "" "" "")) as [o [|]]; simpl; auto.
Qed.

Lemma parseOptions_r0 :
  parseOptions (json_text "{'resource':'r0'}") = (mkOptions "" "" "r0", None).
Proof. vm_compute. reflexivity. Qed.

Lemma ends_in_reply (P : envelope -> Z -> Prop) (e : envelope) (code : Z) :
  P e code -> ends_in P (reply e code).
Proof. intros H. simpl. exists e. auto. Qed.

Lemma invariant_failure (message : string) (code : Z) :
  success_has_no_message (failure message) code.
Proof. split; simpl; discriminate. Qed.

Lemma invariant_not_supported (message : string) (code : Z) :
  success_has_no_message (Plain (mkResponse "Not supported" message)) code.
Proof. split; simpl; discriminate. Qed.

Lemma invariant_success (e : envelope) (code : Z) :
  base e = mkResponse "Success" "" -> success_has_no_message e code.
Proof.
  intros H. split.
  - rewrite H. reflexivity.
  - intros _. destruct e as [r | r | r | r]; simpl in H;
      unfold json_Marshal; simpl base; rewrite H; reflexivity.
Qed.

Create HintDb envelope.

#[local] Hint Resolve ends_in_reply invariant_failure invariant_not_supported
  invariant_success : envelope.

(** One step of the walk through an action: reduce the argument handling,
    split on the parse result and on each answer of the world, and close
    the ends with the invariant. *)
Ltac walk :=
  repeat first
    [ progress cbn [ends_in bind index nth_error List.length Nat.ltb Nat.leb
                    trigger tooFewArgsResponse negb]
    | match goal with
      | |- ends_in _ (reply _ _) => solve [auto with envelope]
      | |- ends_in _ (match parseOptions ?x with _ => _ end) =>
          destruct (parseOptions x) as [? [? |]]
      | |- forall x : drbd.answer _, _ =>
          let x := fresh "x" in intro x; cbn [drbd.answer] in x
      | |- ends_in _ (let (_, _) := ?x in _) => destruct x
      | |- ends_in _ (match ?x with Some _ => _ | None => _ end) => destruct x
      | |- ends_in _ (if ?b then _ else _) => destruct b
      end ].

Section Properties.

Variable wide_IsPrint : Z -> bool.

(** C10.  With no action name at all, [Call] answers at once, making no
    call into the cluster manager or the mounter in any world, with exit
    code 2 and a Failure envelope whose message lists the valid
    actions. *)
Theorem Call_no_action :
  Call wide_IsPrint []
  = Ret (json_text "{'status':'Failure','message':'No driver action! Valid actions are: init, attach, detach, mountdevice, unmountdevice, getvolumename, isattached'}", 2)
  /\ forall (W : Type) (h : world W) (w : W),
       run h (Call wide_IsPrint []) w
       = (Returned (json_Marshal (Plain (mkResponse "Failure" "No driver action! Valid actions are: init, attach, detach, mountdevice, unmountdevice, getvolumename, isattached")), 2), w, []).
Proof.
  split.
  - vm_compute. reflexivity.
  - intros W h w. reflexivity.
Qed.

(** C1.  An action that takes arguments and is given fewer than it
    requires is answered at once: a Failure envelope that names the action
    and echoes the argument vector, exit code 2; in every world the run
    makes no call into the cluster manager or the mounter and leaves the
    world as it was. *)
Theorem Call_too_few_arguments (action : string) (rest : list string)
  (n : nat) :
  required_args action = Some n ->
  (List.length rest < n)%nat ->
  let e := Plain (mkResponse "Failure"
                    ("DRBD Flexvoume API: " ++ action
                     ++ ": too few arguments passed: "
                     ++ fmt.bracketed (action :: rest))) in
  Call wide_IsPrint (action :: rest) = Ret (json_Marshal e, 2)
  /\ forall (W : Type) (h : world W) (w : W),
       run h (Call wide_IsPrint (action :: rest)) w
       = (Returned (json_Marshal e, 2), w, []).
Proof.
  intros Hreq Hlen e.
  assert (Hcall : Call wide_IsPrint (action :: rest) = Ret (json_Marshal e, 2)).
  { unfold required_args in Hreq. subst e.
    repeat match type of Hreq with
           | (if String.eqb ?a ?b then _ else _) = _ =>
               destruct (String.eqb_spec a b) as [-> | _]
           end;
      try discriminate;
      injection Hreq as <-;
      repeat (destruct rest as [| ? rest]; simpl in Hlen; try lia);
      reflexivity. }
  split; [exact Hcall |].
  intros W h w. rewrite Hcall. reflexivity.
Qed.

(** C2, as the code has it.  A first argument that is none of the action
    names is answered at once with exit code 2 and the status
    [Not supported] (two words, as the FlexVolume protocol spells it),
    the message quoting the action; for the action foo the envelope is the
    text shown. *)
Theorem Call_unsupported_action (action : string) (rest : list string) :
  recognized action = false ->
  Call wide_IsPrint (action :: rest)
  = Ret (json_Marshal
           (Plain (mkResponse "Not supported"
                     ("Unsupported driver action: "
                      ++ strconv.Quote wide_IsPrint action))), 2)
  /\ Call wide_IsPrint ("foo" :: rest)
     = Ret (json_text "{'status':'Not supported','message':'Unsupported driver action: \'foo\''}", 2).
Proof.
  intros Hrec. split.
  - unfold recognized, actions in Hrec. simpl in Hrec.
    repeat (apply orb_false_elim in Hrec; destruct Hrec as [? Hrec]).
    unfold Call. simpl.
    repeat match goal with
           | H : String.eqb action _ = false |- _ => rewrite H; clear H
           end.
    reflexivity.
  - vm_compute. reflexivity.
Qed.

(** C3, as the code has it.  For [isattached] with the options
    [{"resource":"r0"}] and any node name, in a world where
    [WaitForAssignment] answers false without an error, the run makes
    that one call and returns exit code 2 with a Failure envelope whose
    message carries the prefix that [flexAPIErr.Error] puts before every
    message of the plugin. *)
Theorem isattached_not_attached (node : string) (rest : list string)
  (W : Type) (h : world W) (w w1 : W) :
  let r := drbd.mkResource "r0" node in
  h (drbd.WaitForAssignment r 4) w = ((false, None), w1) ->
  run h (Call wide_IsPrint
           ("isattached" :: json_text "{'resource':'r0'}" :: node :: rest)) w
  = (Returned (json_text "{'status':'Failure','message':'DRBD Flexvoume API: resource \'r0\' not attached'}", 2),
     w1, [drbd.WaitForAssignment r 4]).
Proof.
  intros r Hh.
  change (Call wide_IsPrint
            ("isattached" :: json_text "{'resource':'r0'}" :: node :: rest))
    with (isAttached wide_IsPrint
            ("isattached" :: json_text "{'resource':'r0'}" :: node :: rest)).
  unfold isAttached.
  cbn [List.length Nat.ltb Nat.leb index nth_error bind trigger].
  rewrite parseOptions_r0.
  cbn [Resource]. fold r. rewrite run_Vis, Hh.
  cbn [fst snd bind negb reply run].
  subst r. vm_compute. reflexivity.
Qed.

(** Every end of every invocation is a marshalled envelope that keeps
    the invariant; no invocation panics. *)
Lemma Call_ends (s : list string) :
  ends_in success_has_no_message (Call wide_IsPrint s).
Proof.
  destruct s as [| action rest].
  - unfold Call. walk.
  - unfold Call. cbn [List.length Nat.ltb Nat.leb index nth_error bind].
    repeat match goal with
           | |- ends_in _ (if String.eqb ?a ?b then _ else _) =>
               destruct (String.eqb a b)
           end;
      unfold init, attach, waitForAttach, detach, mountDevice, unmountDevice,
        unmount, getVolumeName, isAttached, success;
      try solve [walk];
      destruct rest as [| a1 rest]; try solve [walk];
      destruct rest as [| a2 rest]; try solve [walk];
      destruct rest as [| a3 rest]; solve [walk].
Qed.

(** C4.  Whatever the argument vector and whatever the cluster manager
    and the mounter answer, the invocation returns one marshalled
    envelope, and a status of Success comes with an empty message, both
    in the envelope and in its JSON text. *)
Theorem Call_success_has_no_message (s : list string) (W : Type)
  (h : world W) (w : W) :
  exists e code w' t,
    run h (Call wide_IsPrint s) w = (Returned (json_Marshal e, code), w', t)
    /\ (Status (base e) = "Success" -> Message (base e) = "")
    /\ (String.prefix (json_text "{'status':'Success'") (json_Marshal e) = true ->
        String.prefix (json_text "{'status':'Success','message':''")
          (json_Marshal e) = true).
Proof.
  destruct (ends_in_run success_has_no_message h _ (Call_ends s) w)
    as (e & code & w' & t & Hrun & HP).
  exists e, code, w', t. split; [exact Hrun | exact HP].
Qed.

(** C5.  When the options string does not unmarshal into [options],
    each of the four actions that parse options, given enough arguments,
    returns at once (no panic, no call into the cluster manager or the
    mounter in any world) with exit code 2 and a Failure envelope whose
    message ends with the raw options string. *)
Theorem Call_malformed_options (raw : string) :
  malformed raw = true ->
  (forall node rest,
      Call wide_IsPrint ("attach" :: raw :: node :: rest)
      = options_failure raw)
  /\ (forall target device rest,
         Call wide_IsPrint ("mountdevice" :: target :: device :: raw :: rest)
         = options_failure raw)
  /\ (forall rest,
         Call wide_IsPrint ("getvolumename" :: raw :: rest)
         = options_failure raw)
  /\ (forall node rest,
         Call wide_IsPrint ("isattached" :: raw :: node :: rest)
         = options_failure raw)
  /\ (forall (W : Type) (h : world W) (w : W),
         run h (options_failure raw) w
         = (Returned
              (json_Marshal
                 (Plain (mkResponse "Failure"
                           ("DRBD Flexvoume API: couldn't parse options from "
                            ++ raw))), 2), w, [])).
Proof.
  intros Hbad. apply parseOptions_malformed in Hbad.
  repeat split; intros;
    try (unfold Call, attach, mountDevice, getVolumeName, isAttached;
         cbn [List.length Nat.ltb Nat.leb index nth_error bind String.eqb
              Ascii.eqb Bool.eqb];
         destruct (parseOptions raw) as [opts err]; simpl in Hbad;
         subst err; reflexivity).
Qed.

(** C6.  [getvolumename] with the options
    [{"resource":"r0","kubernetes.io/fsType":"ext4"}] returns at once
    with exit code 0 and the Success envelope whose volumeName is r0; and
    for two options strings that parse and name the same resource the
    replies are the same, whatever their other fields hold. *)
Theorem getvolumename_resource_only :
  (forall rest,
      Call wide_IsPrint
        ("getvolumename"
           :: json_text "{'resource':'r0','kubernetes.io/fsType':'ext4'}"
           :: rest)
      = Ret (json_Marshal
               (OfGetVolName (mkGetVolNameResponse
                                (mkResponse "Success" "") "r0")), 0)
      /\ json_Marshal
           (OfGetVolName (mkGetVolNameResponse
                            (mkResponse "Success" "") "r0"))
         = json_text "{'status':'Success','message':'','volumeName':'r0'}")
  /\ (forall raw1 raw2 opts1 opts2 rest1 rest2,
         parseOptions raw1 = (opts1, None) ->
         parseOptions raw2 = (opts2, None) ->
         Resource opts1 = Resource opts2 ->
         Call wide_IsPrint ("getvolumename" :: raw1 :: rest1)
         = Call wide_IsPrint ("getvolumename" :: raw2 :: rest2)).
Proof.
  assert (Hcall : forall raw opts rest,
             parseOptions raw = (opts, None) ->
             Call wide_IsPrint ("getvolumename" :: raw :: rest)
             = Ret (json_Marshal
                      (OfGetVolName (mkGetVolNameResponse
                                       (mkResponse "Success" "")
                                       (Resource opts))), 0)).
  { intros raw opts rest Hp. unfold Call, getVolumeName.
    cbn [List.length Nat.ltb Nat.leb index nth_error bind String.eqb
         Ascii.eqb Bool.eqb].
    rewrite Hp. reflexivity. }
  split.
  - intros rest. split.
    + apply (Hcall _ (mkOptions "ext4" "" "r0")).
      vm_compute. reflexivity.
    + vm_compute. reflexivity.
  - intros raw1 raw2 opts1 opts2 rest1 rest2 H1 H2 Heq.
    rewrite (Hcall _ _ rest1 H1), (Hcall _ _ rest2 H2), Heq. reflexivity.
Qed.

(** C7, as the code has it.  With a target path, [unmountdevice] and
    [unmount] are the same program: the same call to the unmount
    primitive and, from each of its answers, the same envelope and exit
    code.  Without one, both fail at once with exit code 2, each naming
    the action it was called as. *)
Theorem unmountdevice_is_unmount (target : string) (rest : list string) :
  Call wide_IsPrint ("unmountdevice" :: target :: rest)
  = Call wide_IsPrint ("unmount" :: target :: rest)
  /\ (forall action,
         action = "unmountdevice" \/ action = "unmount" ->
         Call wide_IsPrint [action]
         = Ret (json_Marshal
                  (Plain (mkResponse "Failure"
                            ("DRBD Flexvoume API: " ++ action
                             ++ ": too few arguments passed: ["
                             ++ action ++ "]"))), 2)).
Proof.
  split.
  - reflexivity.
  - intros action [-> | ->]; reflexivity.
Qed.

(** C8.  For [attach] with enough arguments and options that parse: when
    the cluster manager rejects the assignment, the run stops after that
    call with a Failure envelope and exit code 1; when the assignment is
    accepted and [WaitForDevPath] gives up with an error, the run stops
    after those two calls with a Failure envelope and exit code 1. *)
Theorem attach_operational_failure (raw node : string) (rest : list string)
  (opts : options) (W : Type) (h : world W) (w : W) :
  parseOptions raw = (opts, None) ->
  let r := drbd.mkResource (Resource opts) node in
  let s := "attach" :: raw :: node :: rest in
  (forall e w1,
      h (drbd.AssignRes r) w = (Some e, w1) ->
      run h (Call wide_IsPrint s) w
      = (Returned
           (json_Marshal
              (Plain (mkResponse "Failure"
                        ("DRBD Flexvoume API: attach: failed to assign resource "
                         ++ strconv.Quote wide_IsPrint (Resource opts)))), 1),
         w1, [drbd.AssignRes r]))
  /\ (forall w1 path e w2,
         h (drbd.AssignRes r) w = (None, w1) ->
         h (drbd.WaitForDevPath r 4) w1 = ((path, Some e), w2) ->
         run h (Call wide_IsPrint s) w
         = (Returned
              (json_Marshal
                 (Plain (mkResponse "Failure"
                           ("DRBD Flexvoume API: attach: unable to find device path for resource "
                            ++ strconv.Quote wide_IsPrint (Resource opts)))), 1),
            w2, [drbd.AssignRes r; drbd.WaitForDevPath r 4])).
Proof.
  intros Hp r s.
  assert (Hcall : Call wide_IsPrint s = attach wide_IsPrint s) by reflexivity.
  rewrite Hcall. subst s. unfold attach.
  cbn [List.length Nat.ltb Nat.leb index nth_error bind trigger].
  rewrite Hp. cbn [drbd.Name]. fold r.
  split.
  - intros e w1 Ha. rewrite run_Vis, Ha. reflexivity.
  - intros w1 path e w2 Ha Hw. rewrite run_Vis, Ha.
    cbn [fst snd bind]. rewrite run_Vis, Hw. reflexivity.
Qed.

End Properties.

(** ** Properties of the device path resolver *)

Section ResolverProperties.

Variable M : Type.
Variable queryDevicePath : drbd.Resource -> M -> (option string + string) * M.
Variable resource : drbd.Resource.

Local Abbreviation wait := (Resolver.waitForDevicePath M queryDevicePath resource).
Local Abbreviation poll := (Resolver.poll M queryDevicePath resource).
Local Abbreviation after := (Resolver.after M queryDevicePath resource).
Local Abbreviation no_path_for :=
  (Resolver.no_path_for M queryDevicePath resource).

Lemma no_path_for_next (k : nat) (m : M) :
  no_path_for (S k) m ->
  no_path_for k (Resolver.next M queryDevicePath resource m).
Proof.
  intros H i Hi. apply (H (S i)). lia.
Qed.

(** One poll that reports no path leaves the rest of the budget to the
    polls that follow. *)
Lemma wait_step (n : nat) (m : M) :
  poll m = inl None \/ poll m = inl (Some "") ->
  wait (S n) m =
  (let '(res, m2, polls) :=
     wait n (Resolver.next M queryDevicePath resource m) in
   (res, m2, S polls)).
Proof.
  unfold Resolver.poll, Resolver.next. simpl.
  destruct (queryDevicePath resource m) as [a m1]. simpl.
  intros [-> | ->]; reflexivity.
Qed.

Lemma wait_found (k : nat) :
  forall (maxAttempts : nat) (m : M) (p : string),
    (k < maxAttempts)%nat ->
    no_path_for k m ->
    poll (after k m) = inl (Some p) ->
    p <> "" ->
    wait maxAttempts m = (inl p, after (S k) m, S k).
Proof.
  induction k as [| k IH]; intros [| n] m p Hlt Hnone Hp Hne; try lia.
  - simpl in Hp. unfold Resolver.poll in Hp. simpl.
    unfold Resolver.next.
    destruct (queryDevicePath resource m) as [a m1]. simpl in *. subst a.
    destruct p as [| c p]; [contradiction | reflexivity].
  - rewrite wait_step by (apply (Hnone 0%nat); lia).
    rewrite (IH n _ p); [reflexivity | lia | | exact Hp | exact Hne].
    apply no_path_for_next, Hnone.
Qed.

Lemma wait_error (k : nat) :
  forall (maxAttempts : nat) (m : M) (text : string),
    (k < maxAttempts)%nat ->
    no_path_for k m ->
    poll (after k m) = inr text ->
    wait maxAttempts m
    = (inr (Resolver.ManagerError text), after (S k) m, S k).
Proof.
  induction k as [| k IH]; intros [| n] m text Hlt Hnone Hp; try lia.
  - simpl in Hp. unfold Resolver.poll in Hp. simpl.
    unfold Resolver.next.
    destruct (queryDevicePath resource m) as [a m1]. simpl in *. subst a.
    reflexivity.
  - rewrite wait_step by (apply (Hnone 0%nat); lia).
    rewrite (IH n _ text); [reflexivity | lia | | exact Hp].
    apply no_path_for_next, Hnone.
Qed.

Lemma wait_timeout (maxAttempts : nat) :
  forall m : M,
    no_path_for maxAttempts m ->
    wait maxAttempts m
    = (inr (Resolver.TimeoutError (drbd.Name resource)),
       after maxAttempts m, maxAttempts).
Proof.
  induction maxAttempts as [| n IH]; intros m Hnone.
  - reflexivity.
  - rewrite wait_step by (apply (Hnone 0%nat); lia).
    rewrite IH by (apply no_path_for_next, Hnone). reflexivity.
Qed.

(** C9.  With a budget of at least one attempt: when the manager reports
    no path at the first N-1 polls and a non-empty path at the Nth, N
    within the budget, the resolver returns that path after exactly N
    polls; when every poll of the budget reports no path, it fails with
    the TimeoutError that names the resource; and when a poll fails at
    the manager, it fails with that error after exactly that poll. *)
Theorem waitForDevicePath_polling (maxAttempts : nat) (m : M) :
  (1 <= maxAttempts)%nat ->
  (forall (N : nat) (p : string),
      (1 <= N <= maxAttempts)%nat ->
      no_path_for (N - 1) m ->
      poll (after (N - 1) m) = inl (Some p) ->
      p <> "" ->
      wait maxAttempts m = (inl p, after N m, N))
  /\ (no_path_for maxAttempts m ->
      wait maxAttempts m
      = (inr (Resolver.TimeoutError (drbd.Name resource)),
         after maxAttempts m, maxAttempts))
  /\ (forall (N : nat) (text : string),
         (1 <= N <= maxAttempts)%nat ->
         no_path_for (N - 1) m ->
         poll (after (N - 1) m) = inr text ->
         wait maxAttempts m = (inr (Resolver.ManagerError text), after N m, N)).
Proof.
  intros Hmax. repeat split.
  - intros [| k] p HN Hnone Hp Hne; [lia |].
    replace (S k - 1)%nat with k in * by lia.
    apply wait_found; auto. lia.
  - apply wait_timeout.
  - intros [| k] text HN Hnone Hp; [lia |].
    replace (S k - 1)%nat with k in * by lia.
    apply wait_error; auto. lia.
Qed.

End ResolverProperties.

(** ** The properties at concrete invocations *)

Lemma Call_too_few_arguments_witness :
  required_args "attach" = Some 2%nat
  /\ (List.length ["{}"] < 2)%nat
  /\ Call latin1_tables ["attach"; "{}"]
     = Ret (json_text "{'status':'Failure','message':'DRBD Flexvoume API: attach: too few arguments passed: [attach {}]'}", 2).
Proof.
  split; [reflexivity |]. split; [simpl; lia |].
  exact (proj1 (Call_too_few_arguments latin1_tables "attach" ["{}"] 2
                  eq_refl (le_n 2))).
Defined.

Lemma Call_unsupported_action_witness :
  recognized "mount" = false
  /\ Call latin1_tables ["mount"; "/mnt"]
     = Ret (json_text "{'status':'Not supported','message':'Unsupported driver action: \'mount\''}", 2).
Proof.
  split; [reflexivity |].
  exact (proj1 (Call_unsupported_action latin1_tables "mount" ["/mnt"] eq_refl)).
Defined.

Lemma isattached_not_attached_witness :
  never_assigned (drbd.WaitForAssignment (drbd.mkResource "r0" "nodeA") 4) tt
  = ((false, None), tt)
  /\ run never_assigned
       (Call latin1_tables
          ["isattached"; json_text "{'resource':'r0'}"; "nodeA"]) tt
     = (Returned (json_text "{'status':'Failure','message':'DRBD Flexvoume API: resource \'r0\' not attached'}", 2),
        tt, [drbd.WaitForAssignment (drbd.mkResource "r0" "nodeA") 4]).
Proof.
  split; [reflexivity |].
  exact (isattached_not_attached latin1_tables "nodeA" [] unit never_assigned
           tt tt eq_refl).
Defined.

Lemma Call_malformed_options_witness :
  malformed (json_text "{'resource':") = true
  /\ Call latin1_tables ["attach"; json_text "{'resource':"; "nodeA"]
     = options_failure (json_text "{'resource':").
Proof.
  split; [reflexivity |].
  exact (proj1 (Call_malformed_options latin1_tables
                  (json_text "{'resource':") eq_refl) "nodeA" []).
Defined.

Lemma getvolumename_resource_only_witness :
  parseOptions (json_text "{'resource':'r0','kubernetes.io/fsType':'ext4'}")
  = (mkOptions "ext4" "" "r0", None)
  /\ parseOptions (json_text "{'kubernetes.io/fsType':'xfs','resource':'r0'}")
     = (mkOptions "xfs" "" "r0", None)
  /\ Call latin1_tables
       ["getvolumename";
        json_text "{'resource':'r0','kubernetes.io/fsType':'ext4'}"]
     = Call latin1_tables
         ["getvolumename";
          json_text "{'kubernetes.io/fsType':'xfs','resource':'r0'}"].
Proof.
  split; [reflexivity |]. split; [reflexivity |].
  exact (proj2 (getvolumename_resource_only latin1_tables)
           (json_text "{'resource':'r0','kubernetes.io/fsType':'ext4'}")
           (json_text "{'kubernetes.io/fsType':'xfs','resource':'r0'}")
           (mkOptions "ext4" "" "r0") (mkOptions "xfs" "" "r0") [] []
           eq_refl eq_refl eq_refl).
Defined.

Lemma unmountdevice_is_unmount_witness :
  Call latin1_tables ["unmountdevice"; "/mnt/data"]
  = Call latin1_tables ["unmount"; "/mnt/data"]
  /\ Call latin1_tables ["unmount"]
     = Ret (json_text "{'status':'Failure','message':'DRBD Flexvoume API: unmount: too few arguments passed: [unmount]'}", 2).
Proof.
  split.
  - exact (proj1 (unmountdevice_is_unmount latin1_tables "/mnt/data" [])).
  - exact (proj2 (unmountdevice_is_unmount latin1_tables "/mnt/data" [])
             "unmount" (or_intror eq_refl)).
Defined.

Lemma attach_operational_failure_witness :
  parseOptions (json_text "{'resource':'r0'}") = (mkOptions "" "" "r0", None)
  /\ run rejecting
       (Call latin1_tables ["attach"; json_text "{'resource':'r0'}"; "nodeA"])
       tt
     = (Returned (json_text "{'status':'Failure','message':'DRBD Flexvoume API: attach: failed to assign resource \'r0\''}", 1),
        tt, [drbd.AssignRes (drbd.mkResource "r0" "nodeA")])
  /\ run no_device
       (Call latin1_tables ["attach"; json_text "{'resource':'r0'}"; "nodeA"])
       tt
     = (Returned (json_text "{'status':'Failure','message':'DRBD Flexvoume API: attach: unable to find device path for resource \'r0\''}", 1),
        tt, [drbd.AssignRes (drbd.mkResource "r0" "nodeA");
             drbd.WaitForDevPath (drbd.mkResource "r0" "nodeA") 4]).
Proof.
  split; [reflexivity |]. split.
  - exact (proj1 (attach_operational_failure latin1_tables
                    (json_text "{'resource':'r0'}") "nodeA" []
                    (mkOptions "" "" "r0") unit rejecting tt eq_refl)
             (drbdErr "assign failed") tt eq_refl).
  - exact (proj2 (attach_operational_failure latin1_tables
                    (json_text "{'resource':'r0'}") "nodeA" []
                    (mkOptions "" "" "r0") unit no_device tt eq_refl)
             tt "" (drbdErr "timed out") tt eq_refl eq_refl).
Defined.

Lemma waitForDevicePath_polling_witness :
  let r := drbd.mkResource "r0" "nodeA" in
  let wait := Resolver.waitForDevicePath _ Resolver.scripted r 4 in
  (1 <= 4)%nat
  /\ wait [inl None; inl None; inl (Some "/dev/drbd0")]
     = (inl "/dev/drbd0", [], 3%nat)
  /\ wait [] = (inr (Resolver.TimeoutError "r0"), [], 4%nat)
  /\ wait [inl None; inr "manager down"; inl (Some "/dev/drbd0")]
     = (inr (Resolver.ManagerError "manager down"),
        [inl (Some "/dev/drbd0")], 2%nat).
Proof.
  intros r wait.
  split; [lia |]. split; [| split].
  - refine (proj1 (waitForDevicePath_polling _ Resolver.scripted r 4
                     [inl None; inl None; inl (Some "/dev/drbd0")] _)
              3%nat "/dev/drbd0" _ _ eq_refl _).
    + lia.
    + lia.
    + intros i Hi. destruct i as [| [| i]];
        [left; reflexivity | left; reflexivity | simpl in Hi; lia].
    + discriminate.
  - refine (proj1 (proj2 (waitForDevicePath_polling _ Resolver.scripted r 4
                            [] _)) _).
    + lia.
    + intros i Hi. left. destruct i as [| [| [| [| i]]]];
        [reflexivity | reflexivity | reflexivity | reflexivity | lia].
  - refine (proj2 (proj2 (waitForDevicePath_polling _ Resolver.scripted r 4
                            [inl None; inr "manager down";
                             inl (Some "/dev/drbd0")] _))
              2%nat "manager down" _ _ eq_refl).
    + lia.
    + lia.
    + intros i Hi. destruct i as [| i];
        [left; reflexivity | simpl in Hi; lia].
Defined.

(** ** Where the specification and the code part *)

(** C2 as stated: the status of the reply to an unknown action is not the
    single word of the specification. *)
Lemma Call_unsupported_action_counterexample :
  Call latin1_tables ["foo"]
  <> Ret (json_text "{'status':'NotSupported','message':'Unsupported driver action: \'foo\''}", 2).
Proof. vm_compute. intros H. discriminate H. Qed.

(** C3 as stated: the message of the reply is not the bare text of the
    specification. *)
Lemma isattached_not_attached_counterexample :
  fst (fst (run never_assigned
              (Call latin1_tables
                 ["isattached"; json_text "{'resource':'r0'}"; "nodeA"]) tt))
  <> Returned (json_text "{'status':'Failure','message':'resource \'r0\' not attached'}", 2).
Proof. vm_compute. intros H. discriminate H. Qed.

(** C7 as stated: with the empty tail the two replies differ. *)
Lemma unmountdevice_is_unmount_counterexample :
  Call latin1_tables (["unmountdevice"] ++ [])
  <> Call latin1_tables (["unmount"] ++ []).
Proof. vm_compute. intros H. discriminate H. Qed.

(** ** Further properties of the dispatcher *)

Lemma traces_ok_run {W A : Type} (h : world W) (p : Prog A) :
  forall (Q : list drbd.call -> Prop),
    traces_ok Q p -> forall w, Q (snd (run h p w)).
Proof.
  induction p as [a | | c k IH]; simpl; intros Q Hp w; auto.
  destruct (h c w) as [x w1].
  specialize (IH x (fun t => Q (c :: t)) (Hp x) w1).
  destruct (run h (k x) w1) as [[o w2] t]. exact IH.
Qed.

Lemma ends_in_no_panic (P : envelope -> Z -> Prop) (p : Prog (string * Z)) :
  ends_in P p -> ~ may_panic p.
Proof.
  induction p as [[out code] | | c k IH]; simpl; intros Hp Hm; auto.
  destruct Hm as [x Hx]. exact (IH x (Hp x) Hx).
Qed.

Lemma recognized_false (a : string) :
  a <> "init" -> a <> "attach" -> a <> "waitforattach" -> a <> "detach" ->
  a <> "mountdevice" -> a <> "unmountdevice" -> a <> "unmount" ->
  a <> "getvolumename" -> a <> "isattached" -> recognized a = false.
Proof.
  intros. unfold recognized, actions. simpl.
  repeat match goal with
         | H : a <> ?b |- _ =>
             apply String.eqb_neq in H; rewrite H; clear H
         end.
  reflexivity.
Qed.

(** The walk through an action, with the tactic [leaf] to close each end. *)
Ltac walk_with leaf :=
  repeat first
    [ progress cbn [ends_in bind index nth_error List.length Nat.ltb Nat.leb
                    trigger tooFewArgsResponse negb]
    | match goal with
      | |- ends_in _ (reply _ _) => apply ends_in_reply; solve [leaf]
      | |- ends_in _ (match parseOptions ?x with _ => _ end) =>
          destruct (parseOptions x) as [? [? |]]
      | |- forall x : drbd.answer _, _ =>
          let x := fresh "x" in intro x; cbn [drbd.answer] in x
      | |- ends_in _ (let (_, _) := ?x in _) => destruct x
      | |- ends_in _ (match ?x with Some _ => _ | None => _ end) => destruct x
      | |- ends_in _ (if ?b then _ else _) => destruct b
      end ].

Ltac code_leaf :=
  unfold status_matches_code, failure, success; cbn [base Status attach_response
    isAttached_response getVolName_response];
  repeat split; intros;
    try discriminate; try lia; auto;
    try (do 2 eexists; split;
         [reflexivity | auto; apply recognized_false; assumption]).

Section DispatcherInvariants.

Variable wide_IsPrint : Z -> bool.

Lemma Call_ends_code (s : list string) :
  ends_in (status_matches_code s) (Call wide_IsPrint s).
Proof.
  destruct s as [| action rest].
  - unfold Call. walk_with code_leaf.
  - unfold Call. cbn [List.length Nat.ltb Nat.leb index nth_error bind].
    repeat match goal with
           | |- ends_in _ (if String.eqb ?a ?b then _ else _) =>
               destruct (String.eqb_spec a b) as [-> | ?]
           end;
      unfold init, attach, waitForAttach, detach, mountDevice, unmountDevice,
        unmount, getVolumeName, isAttached;
      try solve [walk_with code_leaf];
      destruct rest as [| a1 rest]; try solve [walk_with code_leaf];
      destruct rest as [| a2 rest]; try solve [walk_with code_leaf];
      destruct rest as [| a3 rest]; solve [walk_with code_leaf].
Qed.

(** X1.  Whatever the arguments and the world, the exit code is 0 exactly
    when the status is Success, and otherwise 1 or 2; the status is one of
    Success, Failure and Not supported; exit code 1 comes only from attach,
    unmount and unmountdevice; and Not supported comes only with exit code
    2 and a first argument that is no action name. *)
Theorem Call_exit_code_matches_status (s : list string) (W : Type)
  (h : world W) (w : W) :
  exists e code w' t,
    run h (Call wide_IsPrint s) w = (Returned (json_Marshal e, code), w', t)
    /\ (code = 0 <-> Status (base e) = "Success")
    /\ (code = 0 \/ code = 1 \/ code = 2)
    /\ (Status (base e) = "Success" \/ Status (base e) = "Failure"
        \/ Status (base e) = "Not supported")
    /\ (code = 1 ->
        exists a rest, s = a :: rest
          /\ (a = "attach" \/ a = "unmount" \/ a = "unmountdevice"))
    /\ (Status (base e) = "Not supported" ->
        code = 2 /\ exists a rest, s = a :: rest /\ recognized a = false).
Proof.
  destruct (ends_in_run (status_matches_code s) h _ (Call_ends_code s) w)
    as (e & code & w' & t & Hrun & HP).
  exists e, code, w', t. split; [exact Hrun | exact HP].
Qed.

End DispatcherInvariants.

(** The walk through an action for the calls it makes. *)
Ltac walk_calls :=
  repeat first
    [ progress cbn [traces_ok bind index nth_error List.length Nat.ltb
                    Nat.leb trigger tooFewArgsResponse negb reply]
    | match goal with
      | |- traces_ok _ (match parseOptions ?x with _ => _ end) =>
          let E := fresh "E" in destruct (parseOptions x) as [? [? |]] eqn:E
      | |- forall x : drbd.answer _, _ =>
          let x := fresh "x" in intro x; cbn [drbd.answer] in x
      | |- traces_ok _ (let (_, _) := ?x in _) => destruct x
      | |- traces_ok _ (match ?x with Some _ => _ | None => _ end) =>
          destruct x
      | |- traces_ok _ (if ?b then _ else _) => destruct b
      end ];
  unfold calls_allowed;
  cbn [nth_error option_map drbd.Name drbd.NodeName];
  repeat match goal with
         | E : parseOptions _ = _ |- _ => rewrite E; clear E
         end;
  cbn [fst];
  auto 6.

Section ActionBehaviour.

Variable wide_IsPrint : Z -> bool.

Lemma Call_calls (s : list string) :
  traces_ok (calls_allowed s) (Call wide_IsPrint s).
Proof.
  destruct s as [| action rest].
  - unfold Call. walk_calls.
  - unfold Call. cbn [List.length Nat.ltb Nat.leb index nth_error bind].
    repeat match goal with
           | |- traces_ok _ (if String.eqb ?a ?b then _ else _) =>
               destruct (String.eqb_spec a b) as [-> | ?]
           end;
      unfold init, attach, waitForAttach, detach, mountDevice, unmountDevice,
        unmount, getVolumeName, isAttached, success;
      try solve [walk_calls];
      destruct rest as [| a1 rest]; try solve [walk_calls];
      destruct rest as [| a2 rest]; try solve [walk_calls];
      destruct rest as [| a3 rest]; solve [walk_calls].
Qed.

(** X2.  Whatever the arguments and the world, an invocation makes no call,
    or the one call of its action, or (attach only) the assignment and then
    the wait for the device of the same resource.  The call is on the
    resource name read from the options (for detach: the first argument as
    it is), the node of the second argument and the path of the first; the
    polling budget is 4; unmount uses the empty mounter. *)
Theorem Call_makes_allowed_calls (s : list string) (W : Type) (h : world W)
  (w : W) :
  calls_allowed s (snd (run h (Call wide_IsPrint s) w)).
Proof.
  apply traces_ok_run, Call_calls.
Qed.

(** X3.  Arguments beyond those an action reads change nothing: with
    exactly the arguments of its arity and with more, the invocation is the
    same program.  The device argument of mountdevice, though counted, is
    not read either. *)
Theorem Call_ignores_surplus_arguments (action : string)
  (args extra : list string) (n : nat) :
  arity action = Some n ->
  List.length args = n ->
  Call wide_IsPrint (action :: args ++ extra)
  = Call wide_IsPrint (action :: args)
  /\ forall target device device' raw,
       Call wide_IsPrint ("mountdevice" :: target :: device :: raw :: extra)
       = Call wide_IsPrint ["mountdevice"; target; device'; raw].
Proof.
  intros Har Hlen. split; [| reflexivity].
  unfold arity, required_args in Har.
  repeat match type of Har with
         | (if String.eqb ?a ?b then _ else _) = _ =>
             destruct (String.eqb_spec a b) as [-> | _]
         end;
    try discriminate;
    injection Har as <-;
    repeat (destruct args as [| ? args]; simpl in Hlen; try discriminate);
    reflexivity.
Qed.

(** X4.  attach, when the options parse, the assignment is accepted and the
    wait for the device returns a path without error: the run makes those
    two calls and returns exit code 0 with a Success envelope whose device
    is that path, unchanged. *)
Theorem attach_returns_device (raw node : string) (rest : list string)
  (opts : options) (W : Type) (h : world W) (w w1 w2 : W) (path : string) :
  parseOptions raw = (opts, None) ->
  let r := drbd.mkResource (Resource opts) node in
  h (drbd.AssignRes r) w = (None, w1) ->
  h (drbd.WaitForDevPath r 4) w1 = ((path, None), w2) ->
  run h (Call wide_IsPrint ("attach" :: raw :: node :: rest)) w
  = (Returned
       (json_Marshal
          (OfAttach (mkAttachResponse (mkResponse "Success" "") path)), 0),
     w2, [drbd.AssignRes r; drbd.WaitForDevPath r 4]).
Proof.
  intros Hp r Ha Hw.
  change (Call wide_IsPrint ("attach" :: raw :: node :: rest))
    with (attach wide_IsPrint ("attach" :: raw :: node :: rest)).
  unfold attach.
  cbn [List.length Nat.ltb Nat.leb index nth_error bind trigger].
  rewrite Hp. fold r. rewrite run_Vis, Ha.
  cbn [fst snd bind]. rewrite run_Vis, Hw. reflexivity.
Qed.

(** X5.  detach passes its first argument to the cluster manager as the
    resource name, without parsing it, and makes that one call: exit code 0
    and Success when the manager accepts; when it fails, exit code 2 and a
    Failure envelope with the manager's error text as it is. *)
Theorem detach_unassigns (name node : string) (rest : list string)
  (W : Type) (h : world W) (w w1 : W) (err : option error) :
  let r := drbd.mkResource name node in
  h (drbd.UnassignRes r) w = (err, w1) ->
  run h (Call wide_IsPrint ("detach" :: name :: node :: rest)) w
  = (Returned
       match err with
       | None => (json_Marshal (Plain (mkResponse "Success" "")), 0)
       | Some e => (json_Marshal (Plain (mkResponse "Failure" (Error e))), 2)
       end,
     w1, [drbd.UnassignRes r]).
Proof.
  intros r Hh.
  change (Call wide_IsPrint ("detach" :: name :: node :: rest))
    with (detach ("detach" :: name :: node :: rest)).
  unfold detach.
  cbn [List.length Nat.ltb Nat.leb index nth_error bind trigger].
  fold r. rewrite run_Vis, Hh. destruct err; reflexivity.
Qed.

(** X6.  mountdevice, when the options parse, makes one call: Mount at the
    target path, with a mounter that holds the resource name and the
    filesystem type of the options.  Exit code 0 and Success when the
    mount succeeds; when it fails, exit code 2 and a Failure envelope whose
    message quotes the error text. *)
Theorem mountdevice_mounts (target device raw : string) (rest : list string)
  (opts : options) (W : Type) (h : world W) (w w1 : W) (err : option error) :
  parseOptions raw = (opts, None) ->
  let m := drbd.mkMounter (Some (drbd.mkResource (Resource opts) ""))
                          (FsType opts) in
  h (drbd.Mount m target) w = (err, w1) ->
  run h (Call wide_IsPrint ("mountdevice" :: target :: device :: raw :: rest)) w
  = (Returned
       match err with
       | None => (json_Marshal (Plain (mkResponse "Success" "")), 0)
       | Some e =>
           (json_Marshal
              (Plain (mkResponse "Failure"
                        ("DRBD Flexvoume API: mountDevice: "
                         ++ strconv.Quote wide_IsPrint (Error e)))), 2)
       end,
     w1, [drbd.Mount m target]).
Proof.
  intros Hp m Hh.
  change (Call wide_IsPrint ("mountdevice" :: target :: device :: raw :: rest))
    with (mountDevice wide_IsPrint
            ("mountdevice" :: target :: device :: raw :: rest)).
  unfold mountDevice.
  cbn [List.length Nat.ltb Nat.leb index nth_error bind trigger].
  rewrite Hp. fold m. rewrite run_Vis, Hh. destruct err; reflexivity.
Qed.

(** X7.  unmount and unmountdevice, given a target path, make one call:
    UnMount at that path with the empty mounter.  Exit code 0 and Success
    when it succeeds; when it fails, exit code 1 (unlike a failed mount)
    and a Failure envelope with the error text after the word unmount. *)
Theorem unmount_unmounts (action target : string) (rest : list string)
  (W : Type) (h : world W) (w w1 : W) (err : option error) :
  action = "unmount" \/ action = "unmountdevice" ->
  h (drbd.UnMount (drbd.mkMounter None "") target) w = (err, w1) ->
  run h (Call wide_IsPrint (action :: target :: rest)) w
  = (Returned
       match err with
       | None => (json_Marshal (Plain (mkResponse "Success" "")), 0)
       | Some e =>
           (json_Marshal
              (Plain (mkResponse "Failure"
                        ("DRBD Flexvoume API: unmount: " ++ Error e))), 1)
       end,
     w1, [drbd.UnMount (drbd.mkMounter None "") target]).
Proof.
  intros Hact Hh.
  assert (Hcall : Call wide_IsPrint (action :: target :: rest)
                  = unmount (action :: target :: rest))
    by (destruct Hact as [-> | ->]; reflexivity).
  rewrite Hcall. unfold unmount.
  cbn [List.length Nat.ltb Nat.leb index nth_error bind trigger].
  rewrite run_Vis, Hh. destruct err; reflexivity.
Qed.

(** X8.  isattached, when the options parse, makes one call:
    WaitForAssignment with a budget of 4.  An error of the manager gives
    exit code 2 and a Failure envelope with the error text as it is,
    whatever the boolean; without error, true gives exit code 0 and a
    Success envelope whose attached field is the string true. *)
Theorem isattached_reports (raw node : string) (rest : list string)
  (opts : options) (W : Type) (h : world W) (w w1 : W) (ok : bool)
  (err : option error) :
  parseOptions raw = (opts, None) ->
  let r := drbd.mkResource (Resource opts) node in
  h (drbd.WaitForAssignment r 4) w = ((ok, err), w1) ->
  (ok = true \/ err <> None) ->
  run h (Call wide_IsPrint ("isattached" :: raw :: node :: rest)) w
  = (Returned
       match err with
       | Some e => (json_Marshal (Plain (mkResponse "Failure" (Error e))), 2)
       | None =>
           (json_Marshal
              (OfIsAttached (mkIsAttachedResponse
                               (mkResponse "Success" "") "true")), 0)
       end,
     w1, [drbd.WaitForAssignment r 4]).
Proof.
  intros Hp r Hh Hok.
  change (Call wide_IsPrint ("isattached" :: raw :: node :: rest))
    with (isAttached wide_IsPrint ("isattached" :: raw :: node :: rest)).
  unfold isAttached.
  cbn [List.length Nat.ltb Nat.leb index nth_error bind trigger].
  rewrite Hp. fold r. rewrite run_Vis, Hh.
  destruct err as [e |]; [reflexivity |].
  destruct Hok as [-> | Hne]; [reflexivity | congruence].
Qed.

Lemma action_ends (f : list string -> Prog (string * Z)) (a : string)
  (rest : list string) :
  f = attach wide_IsPrint \/ f = detach
  \/ f = mountDevice wide_IsPrint \/ f = unmount
  \/ f = unmountDevice \/ f = getVolumeName
  \/ f = isAttached wide_IsPrint \/ f = tooFewArgsResponse ->
  ends_in (fun _ _ => True) (f (a :: rest)).
Proof.
  intros Hf.
  repeat (destruct Hf as [-> | Hf]); try subst f;
    unfold attach, detach, mountDevice, unmountDevice, unmount,
      getVolumeName, isAttached, success;
    try solve [walk_with ltac:(exact I)];
    destruct rest as [| a1 rest]; try solve [walk_with ltac:(exact I)];
    destruct rest as [| a2 rest]; try solve [walk_with ltac:(exact I)];
    destruct rest as [| a3 rest]; solve [walk_with ltac:(exact I)].
Qed.

(** X9.  Each action function, and tooFewArgsResponse, indexes its
    argument at 0 before anything else can fail: called on the empty slice
    it panics, and on any other slice it cannot panic, whatever the world
    answers.  Call, which tests for the empty slice first, cannot panic at
    all. *)
Theorem actions_panic_on_empty_only (f : list string -> Prog (string * Z))
  (s : list string) :
  f = attach wide_IsPrint \/ f = detach
  \/ f = mountDevice wide_IsPrint \/ f = unmount
  \/ f = unmountDevice \/ f = getVolumeName
  \/ f = isAttached wide_IsPrint \/ f = tooFewArgsResponse ->
  (may_panic (f s) <-> s = [])
  /\ ~ may_panic (Call wide_IsPrint s).
Proof.
  intros Hf. split.
  - split.
    + intros Hm. destruct s as [| a rest]; [reflexivity |].
      exfalso. exact (ends_in_no_panic _ _ (action_ends f a rest Hf) Hm).
    + intros ->.
      repeat (destruct Hf as [-> | Hf]); try subst f; exact I.
  - exact (ends_in_no_panic _ _ (Call_ends wide_IsPrint s)).
Qed.

(** X18.  init, waitforattach and getvolumename work on their arguments
    alone: whatever the arguments, they return at once, without a call into
    the cluster manager or the mounter.  init and waitforattach return the
    plain Success envelope and exit code 0 whatever follows the action
    name; getvolumename returns exit code 0 or 2. *)
Theorem local_actions_return_at_once (action : string) (rest : list string) :
  action = "init" \/ action = "waitforattach" \/ action = "getvolumename" ->
  exists text code,
    Call wide_IsPrint (action :: rest) = Ret (text, code)
    /\ (code = 0 \/ code = 2)
    /\ (action <> "getvolumename" ->
        text = json_text "{'status':'Success','message':''}" /\ code = 0).
Proof.
  intros [-> | [-> | ->]].
  - do 2 eexists. split; [reflexivity |]. split; [auto |].
    intros _. split; reflexivity.
  - do 2 eexists. split; [reflexivity |]. split; [auto |].
    intros _. split; reflexivity.
  - change (Call wide_IsPrint ("getvolumename" :: rest))
      with (getVolumeName ("getvolumename" :: rest)).
    unfold getVolumeName. destruct rest as [| raw rest].
    + do 2 eexists. split; [reflexivity |]. split; [auto | congruence].
    + cbn [List.length Nat.ltb Nat.leb index nth_error bind].
      destruct (parseOptions raw) as [opts [e |]];
        do 2 eexists; (split; [reflexivity |]); (split; [auto | congruence]).
Qed.

End ActionBehaviour.

(** ** The JSON encoder and decoder on ASCII strings *)

Lemma string_append_assoc (a b c : string) : (a ++ b) ++ c = a ++ (b ++ c).
Proof. induction a as [| x a IH]; simpl; [reflexivity | now rewrite IH]. Qed.

Lemma string_length_append (a b : string) :
  String.length (a ++ b) = (String.length a + String.length b)%nat.
Proof. induction a as [| x a IH]; simpl; [reflexivity | now rewrite IH]. Qed.

Lemma string_append_empty (a : string) : a ++ "" = a.
Proof. induction a as [| x a IH]; simpl; [reflexivity | now rewrite IH]. Qed.

(** Case analysis over the 256 bytes. *)
Ltac each_byte c :=
  destruct c as [[] [] [] [] [] [] [] []].

Lemma runes_from_ascii (s : string) :
  is_ascii s = true ->
  forall fuel, (String.length s <= fuel)%nat ->
    utf8.runes_from fuel s = ascii_runes s.
Proof.
  induction s as [| c r IH]; intros Ha fuel Hf.
  - destruct fuel; reflexivity.
  - simpl in Ha. apply andb_prop in Ha. destruct Ha as [Hc Hr].
    destruct fuel as [| f]; [simpl in Hf; lia |].
    simpl in Hf.
    change (utf8.runes_from (S f) (String c r))
      with (let '(x, w) := utf8.DecodeRuneInString (String c r) in
            (x, w, take w (String c r))
              :: utf8.runes_from f (drop w (String c r))).
    unfold utf8.DecodeRuneInString. rewrite Hc.
    cbn [take drop ascii_runes]. rewrite IH by (auto; lia). reflexivity.
Qed.

Lemma encode_runes_ascii (s : string) :
  concat_strings (map json_enc.encode_rune (ascii_runes s)) = enc_bytes s.
Proof.
  induction s as [| c r IH]; simpl; [reflexivity |].
  rewrite IH. reflexivity.
Qed.

Lemma encode_string_ascii (s : string) :
  is_ascii s = true ->
  json_enc.encode_string s = String dq (enc_bytes s ++ String dq "").
Proof.
  intros Ha. unfold json_enc.encode_string, utf8.runes.
  rewrite (runes_from_ascii s Ha) by lia.
  rewrite encode_runes_ascii. reflexivity.
Qed.

Lemma scan_enc_byte (c : ascii) (t : string) :
  (code c <? 128) = true ->
  json_dec.scan_string (enc_byte c ++ t)
  = match json_dec.scan_string t with
    | Some (body, rest) => Some (enc_byte c ++ body, rest)
    | None => None
    end.
Proof.
  each_byte c; intros Hc; try discriminate Hc; reflexivity.
Qed.

Lemma unquote_enc_byte (c : ascii) (t : string) (fuel : nat) :
  (code c <? 128) = true ->
  json_dec.unquote_loop (S fuel) (enc_byte c ++ t)
  = match json_dec.unquote_loop fuel t with
    | Some u => Some (String c u)
    | None => None
    end.
Proof.
  each_byte c; intros Hc; try discriminate Hc; reflexivity.
Qed.

Lemma enc_byte_length (c : ascii) :
  (code c <? 128) = true -> (1 <= String.length (enc_byte c))%nat.
Proof.
  each_byte c; intros Hc; try discriminate Hc; vm_compute; lia.
Qed.

(** ** The JSON encoder and decoder on arbitrary byte strings *)

Lemma string_length_drop (n : nat) (s : string) :
  String.length (drop n s) = (String.length s - n)%nat.
Proof.
  revert s. induction n as [| n IH]; intros [| c r]; simpl; auto; lia.
Qed.

(** A rune that starts with a high byte is decoded from high bytes only,
    and from at least one. *)
Lemma decode_high (c : ascii) (r : string) :
  (128 <=? code c) = true ->
  (1 <= snd (utf8.DecodeRuneInString (String c r)))%nat
  /\ is_high (take (snd (utf8.DecodeRuneInString (String c r))) (String c r))
     = true.
Proof.
  intros Hc.
  assert (H1 : is_high (String c "") = true) by (simpl; now rewrite Hc).
  unfold utf8.DecodeRuneInString, utf8.cont.
  destruct r as [| c1 [| c2 [| c3 r]]];
    cbn [byte_at String.get String.length Nat.leb];
    repeat match goal with
           | |- context [if ?b then _ else _] =>
               let E := fresh "E" in destruct b eqn:E
           end;
    cbn [snd take is_high]; rewrite ?Hc; cbn [andb];
    split; try lia; try reflexivity;
    repeat match goal with
           | H : _ && _ = true |- _ => apply andb_prop in H; destruct H
           end;
    repeat match goal with
           | H : ((if ?b then _ else _) <=? _) = true |- _ => destruct b
           end;
    repeat match goal with
           | H : (?a <=? code ?x) = true |- context [128 <=? code ?x] =>
               replace (128 <=? code x) with true
                 by (symmetry; apply Z.leb_le; apply Z.leb_le in H; lia)
           end;
    try reflexivity; try discriminate.
Qed.

Lemma scan_high (raw t : string) :
  is_high raw = true ->
  json_dec.scan_string (raw ++ t)
  = match json_dec.scan_string t with
    | Some (body, rest) => Some (raw ++ body, rest)
    | None => None
    end.
Proof.
  induction raw as [| c r IH]; intros H.
  - simpl. destruct (json_dec.scan_string t) as [[body rest] |]; reflexivity.
  - simpl in H. apply andb_prop in H. destruct H as [Hc Hr].
    specialize (IH Hr). revert Hc IH. simpl String.append.
    generalize (r ++ t). intros u Hc IH.
    assert (Hstep : json_dec.scan_string (String c u)
                    = match json_dec.scan_string u with
                      | Some (body, rest) => Some (String c body, rest)
                      | None => None
                      end)
      by (each_byte c; try discriminate Hc; reflexivity).
    rewrite Hstep, IH.
    destruct (json_dec.scan_string t) as [[body rest] |]; reflexivity.
Qed.

Lemma body_ok_high (raw t : string) :
  is_high raw = true -> body_ok (raw ++ t) = body_ok t.
Proof.
  induction raw as [| c r IH]; intros H; [reflexivity |].
  simpl in H. apply andb_prop in H. destruct H as [Hc Hr].
  rewrite <- (IH Hr). simpl String.append. generalize (r ++ t). intros u.
  each_byte c; try discriminate Hc; reflexivity.
Qed.

Lemma body_ok_enc_byte (c : ascii) (t : string) :
  (code c <? 128) = true -> body_ok (enc_byte c ++ t) = body_ok t.
Proof.
  each_byte c; intros Hc; try discriminate Hc; reflexivity.
Qed.

(** What the encoder writes for the rune at the head of a string: the
    scanner reads through it, and it keeps a string body well formed. *)
Lemma encode_rune_chunk (c : ascii) (r t : string) :
  let s := String c r in
  let x := utf8.DecodeRuneInString s in
  let chunk := json_enc.encode_rune (fst x, snd x, take (snd x) s) in
  json_dec.scan_string (chunk ++ t)
  = match json_dec.scan_string t with
    | Some (body, rest) => Some (chunk ++ body, rest)
    | None => None
    end
  /\ body_ok (chunk ++ t) = body_ok t.
Proof.
  intros s x chunk.
  destruct (code c <? 128) eqn:Hc.
  - assert (Hx : x = (code c, 1%nat)).
    { subst x s. unfold utf8.DecodeRuneInString. rewrite Hc. reflexivity. }
    assert (Hchunk : chunk = enc_byte c).
    { subst chunk. rewrite Hx. reflexivity. }
    rewrite Hchunk. split.
    + apply scan_enc_byte, Hc.
    + apply body_ok_enc_byte, Hc.
  - assert (Hh : (128 <=? code c) = true).
    { apply Z.leb_le. apply Z.ltb_ge in Hc. exact Hc. }
    destruct (decode_high c r Hh) as [Hw Hraw].
    fold s in Hw, Hraw. fold x in Hw, Hraw.
    assert (Hb : byte_at 0 (take (snd x) s) = code c).
    { subst s. destruct (snd x); [lia | reflexivity]. }
    subst chunk. unfold json_enc.encode_rune. rewrite Hb.
    unfold utf8.RuneSelf. rewrite Hc.
    destruct ((fst x =? utf8.RuneError) && (snd x =? 1)%nat).
    + split; [| reflexivity].
      simpl.
      destruct (json_dec.scan_string t) as [[body rest] |]; reflexivity.
    + destruct ((fst x =? 8232) || (fst x =? 8233)) eqn:E.
      * apply orb_prop in E.
        destruct E as [E | E]; apply Z.eqb_eq in E; rewrite E;
          (split; [| reflexivity]); simpl;
          destruct (json_dec.scan_string t) as [[body rest] |]; reflexivity.
      * split; [apply scan_high, Hraw | apply body_ok_high, Hraw].
Qed.

Lemma enc_runes_from (fuel : nat) :
  forall s t : string,
    let body := concat_strings (map json_enc.encode_rune
                                  (utf8.runes_from fuel s)) in
    json_dec.scan_string (body ++ t)
    = match json_dec.scan_string t with
      | Some (b, rest) => Some (body ++ b, rest)
      | None => None
      end
    /\ body_ok (body ++ t) = body_ok t.
Proof.
  induction fuel as [| f IH]; intros s t body.
  - subst body. simpl.
    destruct (json_dec.scan_string t) as [[b rest] |]; auto.
  - destruct s as [| c r].
    + subst body. simpl.
      destruct (json_dec.scan_string t) as [[b rest] |]; auto.
    + subst body.
      change (utf8.runes_from (S f) (String c r))
        with (let '(x, w) := utf8.DecodeRuneInString (String c r) in
              (x, w, take w (String c r))
                :: utf8.runes_from f (drop w (String c r))).
      pose proof (fun u => encode_rune_chunk c r u) as Hchunk.
      cbv zeta in Hchunk.
      destruct (utf8.DecodeRuneInString (String c r)) as [x w].
      cbn [fst snd] in Hchunk. cbn [map concat_strings].
      rewrite string_append_assoc.
      destruct (IH (drop w (String c r)) t) as [IHs IHb].
      destruct (Hchunk (concat_strings
                          (map json_enc.encode_rune
                             (utf8.runes_from f (drop w (String c r))))
                        ++ t)) as [Hs Hb].
      rewrite Hs, Hb, IHs, IHb. split; [| reflexivity].
      destruct (json_dec.scan_string t) as [[b rest] |]; [| reflexivity].
      rewrite string_append_assoc. reflexivity.
Qed.

(** The scanner reads what the encoder wrote for any string up to the
    closing quote, and what it wrote is a well-formed string body. *)
Lemma scan_enc_body (s rest : string) :
  json_dec.scan_string (enc_body s ++ String dq rest) = Some (enc_body s, rest)
  /\ body_ok (enc_body s) = true.
Proof.
  unfold enc_body, utf8.runes.
  destruct (enc_runes_from (String.length s) s (String dq rest)) as [Hs _].
  destruct (enc_runes_from (String.length s) s "") as [_ Hb].
  cbv zeta in Hs, Hb. rewrite string_append_empty in Hb.
  split; [| exact Hb].
  rewrite Hs. simpl. rewrite string_append_empty. reflexivity.
Qed.

Lemma code_backslash (c : ascii) : (code c =? 92) = true -> c = "\"%char.
Proof. each_byte c; intros H; try discriminate H; reflexivity. Qed.

Lemma code_u (c : ascii) : (code c =? 117) = true -> c = "u"%char.
Proof. each_byte c; intros H; try discriminate H; reflexivity. Qed.

Lemma hexval_nonneg (h : ascii) :
  json_dec.isHex h = true -> 0 <= json_dec.hexval h.
Proof.
  each_byte h; intros H; try discriminate H; vm_compute; discriminate.
Qed.

Lemma take_drop (n : nat) (s : string) : take n s ++ drop n s = s.
Proof.
  revert s. induction n as [| n IH]; intros [| c r]; simpl; auto.
  now rewrite IH.
Qed.

Lemma body_ok_plain_step (c : ascii) (r : string) :
  (code c =? 92) = false ->
  body_ok (String c r)
  = if (code c =? 34) || (code c <? 32) then false else body_ok r.
Proof. intros H. simpl. rewrite H. reflexivity. Qed.

Lemma unquote_step_plain (f : nat) (c : ascii) (r : string) :
  (code c =? 92) = false ->
  ((code c =? 34) || (code c <? 32)) = false ->
  json_dec.unquote_loop (S f) (String c r)
  = if code c <? utf8.RuneSelf then
      match json_dec.unquote_loop f r with
      | Some t => Some (String c t)
      | None => None
      end
    else
      match json_dec.unquote_loop f
              (drop (snd (utf8.DecodeRuneInString (String c r))) (String c r))
      with
      | Some t =>
          Some (utf8.EncodeRune (fst (utf8.DecodeRuneInString (String c r)))
                ++ t)
      | None => None
      end.
Proof.
  intros H1 H2. cbn [json_dec.unquote_loop]. rewrite H1, H2.
  destruct (code c <? utf8.RuneSelf); [reflexivity |].
  destruct (utf8.DecodeRuneInString (String c r)) as [rr size]. reflexivity.
Qed.

Lemma unquote_step_escape (f : nat) (e : ascii) (r1 : string) :
  body_ok (String "\" (String e r1)) = true ->
  (code e =? 117) = false ->
  body_ok r1 = true
  /\ exists out,
       json_dec.unquote_loop (S f) (String "\" (String e r1))
       = match json_dec.unquote_loop f r1 with
         | Some t => Some (out ++ t)
         | None => None
         end.
Proof.
  each_byte e; intros Hb Eu; try discriminate Eu; simpl in Hb;
    try discriminate Hb; (split; [exact Hb | eexists; reflexivity]).
Qed.

Lemma unquote_step_u (f : nat) (h1 h2 h3 h4 : ascii) (r2 : string) :
  let s := String "\" (String "u" (String h1 (String h2 (String h3
             (String h4 r2))))) in
  json_dec.unquote_loop (S f) s
  = let rr := json_dec.getu4 s in
    if rr <? 0 then None
    else
      let emit out rest :=
        match json_dec.unquote_loop f rest with
        | Some t => Some (out ++ t)
        | None => None
        end in
      if json_dec.IsSurrogate rr then
        let dec := json_dec.utf16_DecodeRune rr (json_dec.getu4 r2) in
        if negb (dec =? utf8.RuneError)
        then emit (utf8.EncodeRune dec) (drop 6 r2)
        else emit (utf8.EncodeRune utf8.RuneError) r2
      else emit (utf8.EncodeRune rr) r2.
Proof. reflexivity. Qed.

Lemma getu4_body (s : string) :
  0 <= json_dec.getu4 s -> body_ok s = true ->
  body_ok (drop 6 s) = true
  /\ (String.length (drop 6 s) + 6 = String.length s)%nat.
Proof.
  destruct s as [| b [| u [| h1 [| h2 [| h3 [| h4 r]]]]]];
    try (simpl; lia).
  unfold json_dec.getu4.
  destruct ((code b =? 92) && (code u =? 117) && json_dec.isHex h1
            && json_dec.isHex h2 && json_dec.isHex h3 && json_dec.isHex h4)
    eqn:E; [| lia].
  repeat (apply andb_prop in E; destruct E as [E ?]).
  apply code_backslash in E. subst b.
  match goal with H : (code u =? 117) = true |- _ =>
    apply code_u in H; subst u end.
  intros _ Hb. simpl in Hb.
  repeat (apply andb_prop in Hb; destruct Hb as [Hb ?]).
  split; [assumption | simpl; lia].
Qed.

(** Unquoting never fails on a well-formed string body. *)
Lemma unquote_ok (fuel : nat) :
  forall b : string,
    body_ok b = true -> (String.length b <= fuel)%nat ->
    json_dec.unquote_loop fuel b <> None.
Proof.
  induction fuel as [| f IH]; intros b Hb Hl.
  - destruct b; [discriminate | simpl in Hl; lia].
  - destruct b as [| c r]; [discriminate |].
    destruct (code c =? 92) eqn:E92.
    + apply code_backslash in E92. subst c.
      destruct r as [| e r1]; [discriminate Hb |].
      destruct (code e =? 117) eqn:Eu.
      * apply code_u in Eu. subst e.
        destruct r1 as [| h1 [| h2 [| h3 [| h4 r2]]]]; try discriminate Hb.
        rewrite unquote_step_u. cbv zeta.
        simpl in Hb.
        repeat (apply andb_prop in Hb; destruct Hb as [Hb ?]).
        assert (Hrr : (json_dec.getu4
                         (String "\" (String "u" (String h1 (String h2
                            (String h3 (String h4 r2)))))) <? 0) = false).
        { unfold json_dec.getu4.
          change (code "\" =? 92) with true. change (code "u" =? 117) with true.
          repeat match goal with
                 | H : json_dec.isHex _ = true |- _ =>
                     rewrite H; apply hexval_nonneg in H
                 end.
          cbn [andb]. apply Z.ltb_ge. lia. }
        rewrite Hrr. simpl in Hl.
        assert (Hr2 : json_dec.unquote_loop f r2 <> None)
          by (apply IH; [assumption | lia]).
        destruct (json_dec.IsSurrogate _).
        -- destruct (negb _) eqn:Edec.
           ++ assert (Hg : 0 <= json_dec.getu4 r2).
              { unfold json_dec.utf16_DecodeRune in Edec.
                destruct ((55296 <=? _) && _ && (56320 <=? json_dec.getu4 r2)
                          && _) eqn:Ec in Edec.
                - repeat (apply andb_prop in Ec; destruct Ec as [Ec ?]).
                  match goal with
                  | H : (56320 <=? json_dec.getu4 r2) = true |- _ =>
                      apply Z.leb_le in H; lia
                  end.
                - discriminate Edec. }
              destruct (getu4_body r2 Hg) as [Hb6 Hl6]; [assumption |].
              assert (H6 : json_dec.unquote_loop f (drop 6 r2) <> None)
                by (apply IH; [assumption | lia]).
              destruct (json_dec.unquote_loop f (drop 6 r2));
                [discriminate | contradiction].
           ++ destruct (json_dec.unquote_loop f r2);
                [discriminate | contradiction].
        -- destruct (json_dec.unquote_loop f r2);
             [discriminate | contradiction].
      * destruct (unquote_step_escape f e r1 Hb Eu) as [Hr1 [out Hstep]].
        rewrite Hstep. simpl in Hl.
        assert (H1 : json_dec.unquote_loop f r1 <> None)
          by (apply IH; [assumption | lia]).
        destruct (json_dec.unquote_loop f r1); [discriminate | contradiction].
    + rewrite (body_ok_plain_step c r E92) in Hb.
      destruct ((code c =? 34) || (code c <? 32)) eqn:Ebad;
        [discriminate Hb |].
      rewrite (unquote_step_plain f c r E92 Ebad). simpl in Hl.
      destruct (code c <? utf8.RuneSelf) eqn:Ea.
      * assert (H1 : json_dec.unquote_loop f r <> None)
          by (apply IH; [assumption | lia]).
        destruct (json_dec.unquote_loop f r); [discriminate | contradiction].
      * assert (Hh : (128 <=? code c) = true).
        { apply Z.leb_le. apply Z.ltb_ge in Ea. exact Ea. }
        destruct (decode_high c r Hh) as [Hw Hraw].
        set (size := snd (utf8.DecodeRuneInString (String c r))) in *.
        assert (Hd : json_dec.unquote_loop f (drop size (String c r)) <> None).
        { apply IH.
          - rewrite <- (body_ok_high _ _ Hraw), take_drop.
            rewrite (body_ok_plain_step c r E92), Ebad. exact Hb.
          - rewrite string_length_drop. cbn [String.length]. lia. }
        destruct (json_dec.unquote_loop f (drop size (String c r)));
          [discriminate | contradiction].
Qed.

(** Reading back what the encoder wrote for any string, up to the closing
    quote, succeeds. *)
Lemma parse_string_enc_body (s rest : string) :
  json_dec.parse_string (enc_body s ++ String dq rest)
  = Some (read_back s, rest).
Proof.
  destruct (scan_enc_body s rest) as [Hs Hb].
  unfold json_dec.parse_string, read_back, json_dec.unquote. rewrite Hs.
  pose proof (unquote_ok _ _ Hb (le_n _)) as Hu.
  destruct (json_dec.unquote_loop _ (enc_body s)); [reflexivity | contradiction].
Qed.

Lemma is_plain_ascii (s : string) : is_plain s = true -> is_ascii s = true.
Proof.
  induction s as [| c r IH]; simpl; [reflexivity |].
  intros H. apply andb_prop in H. destruct H as [H Hr].
  apply andb_prop in H. destruct H as [Hc _].
  rewrite Hc, (IH Hr). reflexivity.
Qed.

Lemma enc_byte_plain (c : ascii) :
  (code c <? 128) = true -> json_enc.htmlSafe (code c) = true ->
  enc_byte c = String c "".
Proof.
  intros Hc Hs. unfold enc_byte, json_enc.encode_rune.
  cbn [byte_at String.get]. unfold utf8.RuneSelf. rewrite Hc, Hs. reflexivity.
Qed.

Lemma enc_bytes_plain (s : string) : is_plain s = true -> enc_bytes s = s.
Proof.
  induction s as [| c r IH]; simpl; [reflexivity |].
  intros H. apply andb_prop in H. destruct H as [H Hr].
  apply andb_prop in H. destruct H as [Hc Hs].
  rewrite (enc_byte_plain c Hc Hs), (IH Hr). reflexivity.
Qed.

Lemma enc_bytes_length (s : string) :
  is_ascii s = true -> (String.length s <= String.length (enc_bytes s))%nat.
Proof.
  induction s as [| c r IH]; simpl; [lia |].
  intros H. apply andb_prop in H. destruct H as [Hc Hr].
  rewrite string_length_append.
  pose proof (enc_byte_length c Hc). specialize (IH Hr). lia.
Qed.

Lemma scan_enc_bytes (s rest : string) :
  is_ascii s = true ->
  json_dec.scan_string (enc_bytes s ++ String dq rest)
  = Some (enc_bytes s, rest).
Proof.
  induction s as [| c r IH]; simpl; intros H.
  - reflexivity.
  - apply andb_prop in H. destruct H as [Hc Hr].
    rewrite string_append_assoc, (scan_enc_byte c _ Hc), (IH Hr).
    reflexivity.
Qed.

Lemma unquote_enc_bytes (s : string) :
  is_ascii s = true ->
  forall fuel, (String.length s <= fuel)%nat ->
    json_dec.unquote_loop fuel (enc_bytes s) = Some s.
Proof.
  induction s as [| c r IH]; simpl; intros H fuel Hf.
  - destruct fuel; reflexivity.
  - apply andb_prop in H. destruct H as [Hc Hr].
    destruct fuel as [| f]; [lia |].
    rewrite (unquote_enc_byte c _ f Hc), (IH Hr f) by lia. reflexivity.
Qed.

(** Reading back what the encoder wrote for an ASCII string, up to the
    closing quote, gives the string. *)
Lemma parse_string_enc_bytes (s rest : string) :
  is_ascii s = true ->
  json_dec.parse_string (enc_bytes s ++ String dq rest) = Some (s, rest).
Proof.
  intros Ha. unfold json_dec.parse_string, json_dec.unquote.
  rewrite (scan_enc_bytes s rest Ha).
  rewrite (unquote_enc_bytes s Ha) by (apply enc_bytes_length, Ha).
  reflexivity.
Qed.

Lemma parse_value_quote (f : nat) (t : string) :
  json_dec.parse_value (S f) (String dq t)
  = match json_dec.parse_string t with
    | Some (u, rest) => Some (json_dec.Str u, rest)
    | None => None
    end.
Proof. reflexivity. Qed.

Lemma enc_body_ascii (s : string) :
  is_ascii s = true -> enc_body s = enc_bytes s.
Proof.
  intros Ha. unfold enc_body, utf8.runes.
  rewrite (runes_from_ascii s Ha) by lia. apply encode_runes_ascii.
Qed.

(** An ASCII string is read back as it is. *)
Lemma read_back_ascii (s : string) : is_ascii s = true -> read_back s = s.
Proof.
  intros Ha. unfold read_back, json_dec.unquote.
  rewrite (enc_body_ascii s Ha).
  rewrite (unquote_enc_bytes s Ha) by (apply enc_bytes_length, Ha).
  reflexivity.
Qed.

Lemma parse_value_encoded (f : nat) (s rest : string) :
  json_dec.parse_value (S f) (json_enc.encode_string s ++ rest)
  = Some (json_dec.Str (read_back s), rest).
Proof.
  change (json_enc.encode_string s ++ rest)
    with (String dq ((enc_body s ++ String dq "") ++ rest)).
  rewrite string_append_assoc.
  change (String dq "" ++ rest) with (String dq rest).
  rewrite parse_value_quote, (parse_string_enc_body s rest).
  reflexivity.
Qed.

Lemma parse_members_quote (f : nat) (t : string)
  (acc : list (string * json_dec.value)) :
  json_dec.parse_members (S f) (String dq t) acc
  = match json_dec.parse_string t with
    | Some (key, r1) =>
        match json_dec.skip_ws r1 with
        | String colon r2 =>
            if code colon =? 58 then
              match json_dec.parse_value f r2 with
              | Some (v, r3) =>
                  match json_dec.skip_ws r3 with
                  | String d r4 =>
                      if code d =? 44
                      then json_dec.parse_members f r4 (acc ++ [(key, v)])
                      else if code d =? 125
                      then Some (json_dec.Object (acc ++ [(key, v)]), r4)
                      else None
                  | EmptyString => None
                  end
              | None => None
              end
            else None
        | EmptyString => None
        end
    | None => None
    end.
Proof. reflexivity. Qed.

(** One member written by the encoder, read back. *)
Lemma parse_members_member (f : nat) (name value tail : string)
  (acc : list (string * json_dec.value)) :
  is_plain name = true ->
  json_dec.parse_members (S (S f)) (json_enc.member name value ++ tail) acc
  = match json_dec.skip_ws tail with
    | String d r4 =>
        if code d =? 44
        then json_dec.parse_members (S f) r4
               (acc ++ [(name, json_dec.Str (read_back value))])
        else if code d =? 125
        then Some (json_dec.Object
                     (acc ++ [(name, json_dec.Str (read_back value))]), r4)
        else None
    | EmptyString => None
    end.
Proof.
  intros Hn. unfold json_enc.member.
  change ((String dq name ++ String dq ":" ++ json_enc.encode_string value)
          ++ tail)
    with (String dq ((name ++ String dq ":" ++ json_enc.encode_string value)
                     ++ tail)).
  rewrite string_append_assoc.
  change ((String dq ":" ++ json_enc.encode_string value) ++ tail)
    with (String dq (String ":" (json_enc.encode_string value ++ tail))).
  rewrite parse_members_quote.
  rewrite <- (enc_bytes_plain name Hn) at 1.
  rewrite (parse_string_enc_bytes name _ (is_plain_ascii name Hn)).
  cbn [json_dec.skip_ws json_dec.isSpace].
  change (code ":" =? 58) with true. cbv iota.
  change (json_dec.isSpace ":") with false. cbv iota.
  rewrite (parse_value_encoded f value tail). reflexivity.
Qed.

Lemma members_cons (n v : string) (r : list (string * string)) :
  json_enc.members ((n, v) :: r)
  = json_enc.member n v
    ++ match r with
       | [] => ""
       | _ :: _ => "," ++ json_enc.members r
       end.
Proof.
  destruct r as [| y r]; simpl; [now rewrite string_append_empty | reflexivity].
Qed.

Lemma members_length (l : list (string * string)) :
  (List.length l <= String.length (json_enc.members l))%nat.
Proof.
  induction l as [| [n v] r IH]; [simpl; lia |].
  rewrite members_cons, string_length_append.
  unfold json_enc.member at 1. cbn [String.append String.length List.length].
  destruct r as [| y r]; [simpl; lia |].
  rewrite string_length_append. cbn [String.length]. lia.
Qed.

(** The members of an object written by the encoder, read back up to the
    closing brace. *)
Lemma parse_members_written (l : list (string * string)) :
  forall (acc : list (string * json_dec.value)) (fuel : nat) (rest : string),
    keys_plain l = true -> l <> [] -> (List.length l < fuel)%nat ->
    json_dec.parse_members fuel (json_enc.members l ++ String "}" rest) acc
    = Some (json_dec.Object (acc ++ read_members l), rest).
Proof.
  induction l as [| [n v] r IH]; intros acc fuel rest Hok Hne Hf;
    [contradiction |].
  simpl in Hok. apply andb_prop in Hok. destruct Hok as [Hn Hr].
  destruct fuel as [| [| f]]; [simpl in Hf; lia | simpl in Hf; lia |].
  rewrite members_cons, string_append_assoc.
  rewrite (parse_members_member f n v _ acc Hn).
  destruct r as [| y r].
  - reflexivity.
  - change (json_dec.skip_ws (("," ++ json_enc.members (y :: r))
                              ++ String "}" rest))
      with (String "," (json_enc.members (y :: r) ++ String "}" rest)).
    change (code "," =? 44) with true. cbv iota.
    rewrite (IH _ (S f) rest Hr) by (try discriminate; simpl in *; lia).
    unfold read_members. cbn [map fst snd].
    rewrite <- app_assoc. reflexivity.
Qed.

Lemma parse_value_brace (f : nat) (r : string) :
  json_dec.parse_value (S f) (String "{" r)
  = match json_dec.skip_ws r with
    | String c1 r1 =>
        if code c1 =? 125 then Some (json_dec.Object [], r1)
        else json_dec.parse_members f (json_dec.skip_ws r) []
    | EmptyString => None
    end.
Proof. reflexivity. Qed.

(** The JSON text of an object with string values is well formed: read
    back, it has the same member names in the same order, each with its
    value as the decoder reads it. *)
Lemma parse_object_read (l : list (string * string)) :
  keys_plain l = true ->
  json_dec.parse (json_enc.object l) = Some (json_dec.Object (read_members l)).
Proof.
  intros Hok. destruct l as [| [n v] r]; [reflexivity |].
  unfold json_dec.parse, json_enc.object.
  change ("{" ++ json_enc.members ((n, v) :: r) ++ "}")
    with (String "{" (json_enc.members ((n, v) :: r) ++ String "}" "")).
  cbn [String.length]. rewrite parse_value_brace.
  assert (Hhead : exists t,
             json_enc.members ((n, v) :: r) ++ String "}" "" = String dq t).
  { rewrite members_cons. unfold json_enc.member. simpl. eauto. }
  destruct Hhead as [t Ht]. rewrite Ht.
  cbn [json_dec.skip_ws]. change (json_dec.isSpace dq) with false.
  change (code dq =? 125) with false. cbv iota. rewrite <- Ht.
  rewrite (parse_members_written _ [] _ "" Hok); [reflexivity | discriminate |].
  rewrite string_length_append. pose proof (members_length ((n, v) :: r)).
  simpl in *. lia.
Qed.

Lemma read_members_ascii (l : list (string * string)) :
  forallb is_ascii (map snd l) = true -> read_members l = string_members l.
Proof.
  induction l as [| [n v] r IH]; simpl; intros H; [reflexivity |].
  apply andb_prop in H. destruct H as [Hv Hr].
  unfold read_members, string_members in *. cbn [map fst snd].
  rewrite (read_back_ascii v Hv), (IH Hr). reflexivity.
Qed.

Lemma members_ok_split (l : list (string * string)) :
  members_ok l = true ->
  keys_plain l = true /\ forallb is_ascii (map snd l) = true.
Proof.
  induction l as [| [n v] r IH]; simpl; intros H; [auto |].
  apply andb_prop in H. destruct H as [Hnv Hr].
  apply andb_prop in Hnv. destruct Hnv as [Hn Hv].
  destruct (IH Hr) as [Hk Ha]. rewrite Hn, Hv, Hk, Ha. auto.
Qed.

(** The same for ASCII values: the members come back as they were. *)
Lemma parse_object_written (l : list (string * string)) :
  members_ok l = true ->
  json_dec.parse (json_enc.object l)
  = Some (json_dec.Object (string_members l)).
Proof.
  intros Hok. destruct (members_ok_split l Hok) as [Hk Ha].
  rewrite (parse_object_read l Hk), (read_members_ascii l Ha). reflexivity.
Qed.

Lemma store_string_members (l : list (string * string)) :
  forall o : options,
    store_members (string_members l) o false
    = (mkOptions (last_value fFsType l (FsType o))
                 (last_value fReadwrite l (Readwrite o))
                 (last_value fResource l (Resource o)), false).
Proof.
  induction l as [| [key v] r IH]; intros o.
  - destruct o; reflexivity.
  - cbn [string_members map fst snd store_members last_value].
    unfold selects.
    destruct (find_field fields key None) as [[| |] |];
      fold (string_members r); rewrite IH; reflexivity.
Qed.

Lemma parseOptions_object (l : list (string * string)) :
  members_ok l = true ->
  parseOptions (json_enc.object l)
  = (mkOptions (last_value fFsType l "") (last_value fReadwrite l "")
               (last_value fResource l ""), None).
Proof.
  intros Hok. unfold parseOptions, json_Unmarshal.
  rewrite (parse_object_written l Hok), store_string_members. reflexivity.
Qed.

Lemma parseOptions_options_members (o : options) :
  is_ascii (FsType o) = true -> is_ascii (Readwrite o) = true ->
  is_ascii (Resource o) = true ->
  parseOptions (json_enc.object (options_members o)) = (o, None).
Proof.
  intros Hf Hw Hr.
  rewrite parseOptions_object.
  - destruct o; reflexivity.
  - unfold members_ok, options_members. cbn [forallb fst snd].
    rewrite Hf, Hw, Hr. reflexivity.
Qed.


(** X11.  Round trip of the options: the JSON object that holds the three
    fields of an options value under their tags parses back to that value,
    for ASCII field values. *)
Theorem parseOptions_round_trip (o : options) :
  is_ascii (FsType o) = true -> is_ascii (Readwrite o) = true ->
  is_ascii (Resource o) = true ->
  parseOptions (json_enc.object (options_members o)) = (o, None).
Proof.
  intros Hf Hw Hr.
  assert (Hok : members_ok (options_members o) = true).
  { unfold members_ok, options_members. cbn [forallb fst snd].
    rewrite Hf, Hw, Hr. reflexivity. }
  rewrite (parseOptions_object _ Hok).
  destruct o as [fs rw res]. reflexivity.
Qed.

Lemma envelope_keys_plain (e : envelope) :
  keys_plain (envelope_members e) = true.
Proof. destruct e; reflexivity. Qed.

(** X12.  The JSON text of every envelope, whatever bytes its fields hold,
    is well-formed JSON: read back, it is an object with the members status
    and message, then device, attached or volumeName when the envelope has
    one.  When the fields are ASCII, each member holds the field of the
    struct, unchanged. *)
Theorem json_Marshal_round_trip (e : envelope) :
  json_dec.parse (json_Marshal e)
  = Some (json_dec.Object (read_members (envelope_members e)))
  /\ (ascii_fields e = true ->
      json_dec.parse (json_Marshal e)
      = Some (json_dec.Object (string_members (envelope_members e)))).
Proof.
  assert (H : json_dec.parse (json_Marshal e)
              = Some (json_dec.Object (read_members (envelope_members e)))).
  { change (json_Marshal e) with (json_enc.object (envelope_members e)).
    apply parse_object_read, envelope_keys_plain. }
  split; [exact H |].
  intros Ha. rewrite H, (read_members_ascii _ Ha). reflexivity.
Qed.

(** ** The dispatcher and the JSON texts it reads and writes *)

Section RoundTrips.

Variable wide_IsPrint : Z -> bool.

(** X13.  Whatever the arguments and the world, the text Call returns is
    well-formed JSON: an object whose first member is status, holding
    exactly Success, Failure or Not supported, and whose second member is
    message, a string. *)
Theorem Call_returns_json_object (s : list string) (W : Type) (h : world W)
  (w : W) :
  exists text code w' t st message more,
    run h (Call wide_IsPrint s) w = (Returned (text, code), w', t)
    /\ json_dec.parse text
       = Some (json_dec.Object
                 (("status", json_dec.Str st)
                    :: ("message", json_dec.Str message) :: more))
    /\ (st = "Success" \/ st = "Failure" \/ st = "Not supported")
    /\ (st = "Success" <-> code = 0).
Proof.
  destruct (ends_in_run (status_matches_code s) h _
              (Call_ends_code wide_IsPrint s) w)
    as (e & code & w' & t & Hrun & Hcode & _ & Hst & _).
  exists (json_Marshal e), code, w', t, (Status (base e)),
    (read_back (Message (base e))),
    (read_members (skipn 2 (envelope_members e))).
  split; [exact Hrun |]. split; [| split; [exact Hst | tauto]].
  change (json_Marshal e) with (json_enc.object (envelope_members e)).
  rewrite (parse_object_read _ (envelope_keys_plain e)).
  assert (Hrb : read_back (Status (base e)) = Status (base e))
    by (destruct Hst as [-> | [-> | ->]]; reflexivity).
  unfold envelope_members, read_members.
  cbn [app map fst snd skipn]. rewrite Hrb. reflexivity.
Qed.

(** X14.  getvolumename end to end: given the JSON object of an options
    value with ASCII fields, it returns at once, exit code 0, a text that
    reads back as the object with status Success, the empty message and
    the resource name of the options as volumeName. *)
Theorem getvolumename_round_trip (o : options) (rest : list string) :
  is_ascii (FsType o) = true -> is_ascii (Readwrite o) = true ->
  is_ascii (Resource o) = true ->
  exists text,
    Call wide_IsPrint
      ("getvolumename" :: json_enc.object (options_members o) :: rest)
    = Ret (text, 0)
    /\ json_dec.parse text
       = Some (json_dec.Object
                 [("status", json_dec.Str "Success");
                  ("message", json_dec.Str "");
                  ("volumeName", json_dec.Str (Resource o))]).
Proof.
  intros Hf Hw Hr.
  exists (json_Marshal (OfGetVolName (mkGetVolNameResponse
                                        (mkResponse "Success" "")
                                        (Resource o)))).
  split.
  - change (Call wide_IsPrint
              ("getvolumename" :: json_enc.object (options_members o) :: rest))
      with (getVolumeName
              ("getvolumename" :: json_enc.object (options_members o) :: rest)).
    unfold getVolumeName.
    cbn [List.length Nat.ltb Nat.leb index nth_error bind].
    rewrite (parseOptions_options_members o Hf Hw Hr). reflexivity.
  - change (json_Marshal
              (OfGetVolName (mkGetVolNameResponse (mkResponse "Success" "")
                               (Resource o))))
      with (json_enc.object
              [("status", "Success"); ("message", "");
               ("volumeName", Resource o)]).
    rewrite parse_object_written; [reflexivity |].
    unfold members_ok. cbn [forallb fst snd]. rewrite Hr. reflexivity.
Qed.

(** X15.  attach end to end: given the JSON object of an options value
    with ASCII fields and a node, in a world that accepts the assignment and
    returns an ASCII device path, the run asks the manager for the resource
    name of the options on that node, and returns exit code 0 with a text
    that reads back as the object with status Success, the empty message
    and that path as device. *)
Theorem attach_round_trip (o : options) (node path : string)
  (rest : list string) (W : Type) (h : world W) (w w1 w2 : W) :
  is_ascii (FsType o) = true -> is_ascii (Readwrite o) = true ->
  is_ascii (Resource o) = true -> is_ascii path = true ->
  let r := drbd.mkResource (Resource o) node in
  h (drbd.AssignRes r) w = (None, w1) ->
  h (drbd.WaitForDevPath r 4) w1 = ((path, None), w2) ->
  exists text,
    run h (Call wide_IsPrint
             ("attach" :: json_enc.object (options_members o) :: node :: rest))
        w
    = (Returned (text, 0), w2, [drbd.AssignRes r; drbd.WaitForDevPath r 4])
    /\ json_dec.parse text
       = Some (json_dec.Object
                 [("status", json_dec.Str "Success");
                  ("message", json_dec.Str "");
                  ("device", json_dec.Str path)]).
Proof.
  intros Hf Hw Hr Hp r Ha Hd.
  exists (json_Marshal (OfAttach (mkAttachResponse (mkResponse "Success" "")
                                    path))).
  split.
  - change (Call wide_IsPrint
              ("attach" :: json_enc.object (options_members o) :: node :: rest))
      with (attach wide_IsPrint
              ("attach" :: json_enc.object (options_members o) :: node :: rest)).
    unfold attach.
    cbn [List.length Nat.ltb Nat.leb index nth_error bind trigger].
    rewrite (parseOptions_options_members o Hf Hw Hr). fold r.
    rewrite run_Vis, Ha. cbn [fst snd bind]. rewrite run_Vis, Hd.
    reflexivity.
  - change (json_Marshal
              (OfAttach (mkAttachResponse (mkResponse "Success" "") path)))
      with (json_enc.object
              [("status", "Success"); ("message", ""); ("device", path)]).
    rewrite parse_object_written; [reflexivity |].
    unfold members_ok. cbn [forallb fst snd]. rewrite Hp. reflexivity.
Qed.

End RoundTrips.

(** ** Quoted names in messages *)

Lemma is_printable_ascii (s : string) :
  is_printable s = true -> is_ascii s = true.
Proof.
  induction s as [| c r IH]; simpl; [reflexivity |]. intros H.
  repeat (apply andb_prop in H; destruct H as [H ?]).
  rewrite IH by assumption.
  match goal with
  | Hle : (code c <=? 126) = true |- _ =>
      apply Z.leb_le in Hle;
      replace (code c <? 128) with true by (symmetry; apply Z.ltb_lt; lia)
  end.
  reflexivity.
Qed.

Lemma is_ascii_append (a b : string) :
  is_ascii a = true -> is_ascii b = true -> is_ascii (a ++ b) = true.
Proof.
  induction a as [| c r IH]; simpl; [auto |]. intros H Hb.
  apply andb_prop in H. destruct H as [Hc Hr].
  rewrite Hc, (IH Hr Hb). reflexivity.
Qed.

Section Quoting.

Variable wide_IsPrint : Z -> bool.

Lemma quote_rune_printable (c : ascii) :
  ((32 <=? code c) && (code c <=? 126) && negb (code c =? 34)
   && negb (code c =? 92)) = true ->
  strconv.quote_rune wide_IsPrint (code c, 1%nat, String c "") = String c "".
Proof.
  each_byte c; intros H; try discriminate H; reflexivity.
Qed.

(** [%q] writes a string of printable ASCII without quote and backslash
    as it is, between double quotes. *)
Lemma Quote_printable (s : string) :
  is_printable s = true ->
  strconv.Quote wide_IsPrint s = String dq (s ++ String dq "").
Proof.
  intros Hp. unfold strconv.Quote, utf8.runes.
  rewrite (runes_from_ascii s (is_printable_ascii s Hp)) by lia.
  assert (Hbody : concat_strings
                    (map (strconv.quote_rune wide_IsPrint) (ascii_runes s))
                  = s).
  { induction s as [| c r IH]; [reflexivity |].
    simpl in Hp. apply andb_prop in Hp. destruct Hp as [Hc Hr].
    cbn [ascii_runes map concat_strings].
    rewrite (quote_rune_printable c Hc), (IH Hr). reflexivity. }
  rewrite Hbody. reflexivity.
Qed.

(** X16.  For a first argument that is no action name and is made of
    printable ASCII without double quote and backslash, the reply reads
    back as the object with status Not supported and the message that
    quotes the argument as it is; the exit code is 2. *)
Theorem unsupported_action_message_reads_back (action : string)
  (rest : list string) :
  recognized action = false ->
  is_printable action = true ->
  exists text,
    Call wide_IsPrint (action :: rest) = Ret (text, 2)
    /\ json_dec.parse text
       = Some (json_dec.Object
                 [("status", json_dec.Str "Not supported");
                  ("message",
                   json_dec.Str ("Unsupported driver action: "
                                 ++ String dq (action ++ String dq "")))]).
Proof.
  intros Hrec Hp.
  exists (json_Marshal
            (Plain (mkResponse "Not supported"
                      ("Unsupported driver action: "
                       ++ strconv.Quote wide_IsPrint action)))).
  split.
  - unfold recognized, actions in Hrec. simpl in Hrec.
    repeat (apply orb_false_elim in Hrec; destruct Hrec as [? Hrec]).
    unfold Call. simpl.
    repeat match goal with
           | H : String.eqb action _ = false |- _ => rewrite H; clear H
           end.
    reflexivity.
  - rewrite (Quote_printable action Hp).
    change (json_Marshal
              (Plain (mkResponse "Not supported"
                        ("Unsupported driver action: "
                         ++ String dq (action ++ String dq "")))))
      with (json_enc.object
              [("status", "Not supported");
               ("message", "Unsupported driver action: "
                           ++ String dq (action ++ String dq ""))]).
    rewrite parse_object_written; [reflexivity |].
    unfold members_ok. cbn [forallb fst snd].
    rewrite is_ascii_append; [reflexivity | reflexivity |].
    change (String dq (action ++ String dq ""))
      with (String dq "" ++ (action ++ String dq "")).
    repeat apply is_ascii_append; try reflexivity.
    apply is_printable_ascii, Hp.
Qed.

End Quoting.

(** ** Option keys and letter case *)










Lemma lower_eq_ascii_eqb (s t : string) :
  s = t -> String.eqb (lower s) (lower t) = true.
Proof. intros ->. apply String.eqb_refl. Qed.



(** ** The further properties at concrete invocations *)

Lemma Call_ignores_surplus_arguments_witness :
  arity "detach" = Some 2%nat
  /\ List.length ["r0"; "nodeA"] = 2%nat
  /\ Call latin1_tables ("detach" :: ["r0"; "nodeA"] ++ ["more"; "still more"])
     = Call latin1_tables ["detach"; "r0"; "nodeA"].
Proof.
  split; [reflexivity |]. split; [reflexivity |].
  exact (proj1 (Call_ignores_surplus_arguments latin1_tables "detach"
                  ["r0"; "nodeA"] ["more"; "still more"] 2 eq_refl eq_refl)).
Defined.

Lemma attach_returns_device_witness :
  let world := fixed_world None ("/dev/drbd0", None) (true, None)
                           None None None in
  parseOptions (json_text "{'resource':'r0'}") = (mkOptions "" "" "r0", None)
  /\ run world
       (Call latin1_tables ["attach"; json_text "{'resource':'r0'}"; "nodeA"])
       tt
     = (Returned (json_text "{'status':'Success','message':'','device':'/dev/drbd0'}", 0),
        tt, [drbd.AssignRes (drbd.mkResource "r0" "nodeA");
             drbd.WaitForDevPath (drbd.mkResource "r0" "nodeA") 4]).
Proof.
  intros world. split; [reflexivity |].
  exact (attach_returns_device latin1_tables
           (json_text "{'resource':'r0'}") "nodeA" []
           (mkOptions "" "" "r0") unit world tt tt tt "/dev/drbd0"
           eq_refl eq_refl eq_refl).
Defined.

Lemma detach_unassigns_witness :
  let world := fixed_world None ("", None) (false, None)
                           (Some (drbdErr "resource is in use")) None None in
  run world (Call latin1_tables ["detach"; "r0"; "nodeA"]) tt
  = (Returned (json_text "{'status':'Failure','message':'resource is in use'}", 2),
     tt, [drbd.UnassignRes (drbd.mkResource "r0" "nodeA")]).
Proof.
  intros world.
  exact (detach_unassigns latin1_tables "r0" "nodeA" [] unit world tt tt
           (Some (drbdErr "resource is in use")) eq_refl).
Defined.

Lemma mountdevice_mounts_witness :
  let world := fixed_world None ("", None) (false, None) None
                           (Some (drbdErr "wrong fs type")) None in
  let raw := json_text "{'resource':'r0','kubernetes.io/fsType':'ext4'}" in
  parseOptions raw = (mkOptions "ext4" "" "r0", None)
  /\ run world
       (Call latin1_tables ["mountdevice"; "/mnt/data"; "/dev/drbd0"; raw]) tt
     = (Returned (json_text "{'status':'Failure','message':'DRBD Flexvoume API: mountDevice: \'wrong fs type\''}", 2),
        tt,
        [drbd.Mount (drbd.mkMounter (Some (drbd.mkResource "r0" "")) "ext4")
                    "/mnt/data"]).
Proof.
  intros world raw. split; [reflexivity |].
  exact (mountdevice_mounts latin1_tables "/mnt/data" "/dev/drbd0" raw []
           (mkOptions "ext4" "" "r0") unit world tt tt
           (Some (drbdErr "wrong fs type")) eq_refl eq_refl).
Defined.

Lemma unmount_unmounts_witness :
  let world := fixed_world None ("", None) (false, None) None None
                           (Some (drbdErr "target is busy")) in
  run world (Call latin1_tables ["unmountdevice"; "/mnt/data"]) tt
  = (Returned (json_text "{'status':'Failure','message':'DRBD Flexvoume API: unmount: target is busy'}", 1),
     tt, [drbd.UnMount (drbd.mkMounter None "") "/mnt/data"]).
Proof.
  intros world.
  exact (unmount_unmounts latin1_tables "unmountdevice" "/mnt/data" [] unit
           world tt tt (Some (drbdErr "target is busy"))
           (or_intror eq_refl) eq_refl).
Defined.

Lemma isattached_reports_witness :
  let world := fixed_world None ("", None) (true, None) None None None in
  parseOptions (json_text "{'resource':'r0'}") = (mkOptions "" "" "r0", None)
  /\ run world
       (Call latin1_tables
          ["isattached"; json_text "{'resource':'r0'}"; "nodeA"]) tt
     = (Returned (json_text "{'status':'Success','message':'','attached':'true'}", 0),
        tt, [drbd.WaitForAssignment (drbd.mkResource "r0" "nodeA") 4]).
Proof.
  intros world. split; [reflexivity |].
  exact (isattached_reports latin1_tables (json_text "{'resource':'r0'}")
           "nodeA" [] (mkOptions "" "" "r0") unit world tt tt true None
           eq_refl eq_refl (or_introl eq_refl)).
Defined.

Lemma actions_panic_on_empty_only_witness :
  (may_panic (detach []) <-> @nil string = [])
  /\ (may_panic (detach ["detach"]) <-> ["detach"] = [])
  /\ ~ may_panic (Call latin1_tables []).
Proof.
  assert (Hf : detach = attach latin1_tables \/ detach = detach
               \/ detach = mountDevice latin1_tables \/ detach = unmount
               \/ detach = unmountDevice \/ detach = getVolumeName
               \/ detach = isAttached latin1_tables
               \/ detach = tooFewArgsResponse)
    by (right; left; reflexivity).
  split; [| split].
  - exact (proj1 (actions_panic_on_empty_only latin1_tables detach [] Hf)).
  - exact (proj1 (actions_panic_on_empty_only latin1_tables detach
                    ["detach"] Hf)).
  - exact (proj2 (actions_panic_on_empty_only latin1_tables detach [] Hf)).
Defined.


Lemma parseOptions_round_trip_witness :
  is_ascii "ext4" = true /\ is_ascii "rw" = true /\ is_ascii "r0" = true
  /\ parseOptions
       (json_text "{'kubernetes.io/fsType':'ext4','kubernetes.io/readwrite':'rw','resource':'r0'}")
     = (mkOptions "ext4" "rw" "r0", None).
Proof.
  repeat (split; [reflexivity |]).
  exact (parseOptions_round_trip (mkOptions "ext4" "rw" "r0")
           eq_refl eq_refl eq_refl).
Defined.

Lemma json_Marshal_round_trip_witness :
  let e := OfAttach (mkAttachResponse (mkResponse "Success" "") "/dev/drbd0") in
  ascii_fields e = true
  /\ json_dec.parse (json_text "{'status':'Success','message':'','device':'/dev/drbd0'}")
     = Some (json_dec.Object
               [("status", json_dec.Str "Success");
                ("message", json_dec.Str "");
                ("device", json_dec.Str "/dev/drbd0")]).
Proof.
  intros e. split; [reflexivity |].
  exact (proj2 (json_Marshal_round_trip e) eq_refl).
Defined.

Lemma getvolumename_round_trip_witness :
  is_ascii "ext4" = true /\ is_ascii "rw" = true /\ is_ascii "r0" = true
  /\ exists text,
       Call latin1_tables
         ["getvolumename";
          json_text "{'kubernetes.io/fsType':'ext4','kubernetes.io/readwrite':'rw','resource':'r0'}"]
       = Ret (text, 0)
       /\ json_dec.parse text
          = Some (json_dec.Object
                    [("status", json_dec.Str "Success");
                     ("message", json_dec.Str "");
                     ("volumeName", json_dec.Str "r0")]).
Proof.
  repeat (split; [reflexivity |]).
  exact (getvolumename_round_trip latin1_tables (mkOptions "ext4" "rw" "r0")
           [] eq_refl eq_refl eq_refl).
Defined.

Lemma attach_round_trip_witness :
  let world := fixed_world None ("/dev/drbd0", None) (true, None)
                           None None None in
  is_ascii "r0" = true /\ is_ascii "/dev/drbd0" = true
  /\ exists text,
       run world
         (Call latin1_tables
            ["attach";
             json_text "{'kubernetes.io/fsType':'','kubernetes.io/readwrite':'','resource':'r0'}";
             "nodeA"]) tt
       = (Returned (text, 0), tt,
          [drbd.AssignRes (drbd.mkResource "r0" "nodeA");
           drbd.WaitForDevPath (drbd.mkResource "r0" "nodeA") 4])
       /\ json_dec.parse text
          = Some (json_dec.Object
                    [("status", json_dec.Str "Success");
                     ("message", json_dec.Str "");
                     ("device", json_dec.Str "/dev/drbd0")]).
Proof.
  intros world. repeat (split; [reflexivity |]).
  exact (attach_round_trip latin1_tables (mkOptions "" "" "r0") "nodeA"
           "/dev/drbd0" [] unit world tt tt tt
           eq_refl eq_refl eq_refl eq_refl eq_refl eq_refl).
Defined.

Lemma unsupported_action_message_reads_back_witness :
  recognized "expandvolume" = false
  /\ is_printable "expandvolume" = true
  /\ exists text,
       Call latin1_tables ["expandvolume"; "/dev/drbd0"] = Ret (text, 2)
       /\ json_dec.parse text
          = Some (json_dec.Object
                    [("status", json_dec.Str "Not supported");
                     ("message",
                      json_dec.Str
                        (json_text "Unsupported driver action: 'expandvolume'"))]).
Proof.
  repeat (split; [reflexivity |]).
  exact (unsupported_action_message_reads_back latin1_tables "expandvolume"
           ["/dev/drbd0"] eq_refl eq_refl).
Defined.


Lemma local_actions_return_at_once_witness :
  exists text code,
    Call latin1_tables ["waitforattach"; "/dev/drbd0"; "nodeA"]
    = Ret (text, code)
    /\ (code = 0 \/ code = 2)
    /\ ("waitforattach" <> "getvolumename" ->
        text = json_text "{'status':'Success','message':''}" /\ code = 0).
Proof.
  exact (local_actions_return_at_once latin1_tables "waitforattach"
           ["/dev/drbd0"; "nodeA"] (or_intror (or_introl eq_refl))).
Defined.
